(** * Connection managers of [src/api/external.ts]

    A shallow embedding of the three connection classes [S3Connection],
    [FTPConnection] and [SFTPConnection], and the properties of their
    life cycle.

    The classes are thin wrappers around three external drivers
    ([@aws-sdk/client-s3], [basic-ftp], [ssh2-sftp-client]).  The drivers are
    not part of the program: every call the program makes to a driver is
    recorded in a log, and what the driver does is an input of the code that
    calls it: how the constructor of a client ends (it returns or throws),
    and how an awaited driver promise settles (it resolves or rejects).

    JavaScript objects live in a store indexed by references, so that two
    references to one object are seen to alias. *)

From stdpp Require Import gmap strings list fin_maps.
From Stdlib Require Import ZArith.

(** ** JavaScript values and the object store *)

(** References to objects of the store. *)
Abbreviation loc := nat (only parsing).

(** Identities of the driver client objects ([S3Client], [ftp.Client],
    [SFTPClient]); two handles are the same reference iff they are equal. *)
Abbreviation handle := nat (only parsing).

(** JavaScript numbers, as IEEE 754 has them: the two zeros, the two
    infinities, NaN, and the finite numbers [±m·2^e].  The program does no
    arithmetic on numbers (it tests them and passes them on), so no normal
    form is imposed on [m] and [e]. *)
Inductive number : Type :=
  | Zero (negative : bool)
  | Infinity (negative : bool)
  | NaN
  | Finite (negative : bool) (m : positive) (e : Z).

Global Instance number_eq_dec : EqDecision number.
Proof. solve_decision. Defined.

(** The number an integer literal denotes. *)
Definition int (n : Z) : number :=
  match n with
  | Z0 => Zero false
  | Zpos m => Finite false m 0
  | Zneg m => Finite true m 0
  end.
Coercion int : Z >-> number.

(** The values a config property can hold. *)
Inductive value : Type :=
  | VUndef
  | VNull
  | VBool (b : bool)
  | VNum (n : number)
  | VStr (s : string)
  | VRef (l : loc).
Arguments VNum n%_Z.

Global Instance value_eq_dec : EqDecision value.
Proof. solve_decision. Defined.

(** ToBoolean. *)
Definition truthy (v : value) : bool :=
  match v with
  | VUndef | VNull => false
  | VBool b => b
  | VNum (Zero _) | VNum NaN => false
  | VNum (Infinity _) | VNum (Finite _ _ _) => true
  | VStr s => negb (String.eqb s "")
  | VRef _ => true
  end.

(** [a || b]. *)
Definition js_or (a b : value) : value := if truthy a then a else b.

(** An object is a finite map from property names to values; the store maps
    references to objects. *)
Abbreviation store := (gmap nat (gmap string value)) (only parsing).

(** [o.k]: a property that is absent reads as [undefined]. *)
Definition get_prop (h : store) (l : loc) (k : string) : value :=
  default VUndef (h !! l ≫= (.!! k)).

(** [o.k = v]. *)
Definition set_prop (l : loc) (k : string) (v : value) (h : store) : store :=
  <[l := <[k := v]> (default ∅ (h !! l))]> h.

(** The own properties copied by the spread [{ ...o }]. *)
Definition own_props (h : store) (l : loc) : gmap string value :=
  default ∅ (h !! l).

(** Allocation of a new object: its reference is one the store does not use. *)
Definition alloc (o : gmap string value) (h : store) : loc * store :=
  let l := fresh (dom h) in (l, <[l := o]> h).

(** ** Thrown values *)

(** What a [catch] clause of the program can observe of a thrown value:
    whether it is an instance of [Error], and then its [message]; otherwise
    its string form [String(v)]. *)
Inductive js_exn : Type :=
  | ErrorInstance (message : string)
  | OtherThrown (str : string).

Global Instance js_exn_eq_dec : EqDecision js_exn.
Proof. solve_decision. Defined.

(** [error instanceof Error ? error.message : String(error)] *)
Definition error_text (error : js_exn) : string :=
  match error with
  | ErrorInstance message => message
  | OtherThrown str => str
  end.

(** ** The drivers *)

(** [S3ClientConfig], as the constructor of [S3Connection] fills it. *)
Record S3ClientConfig : Type := mkS3ClientConfig {
  s3_region : value;
  s3_credentials : value;
  s3_endpoint : value;
  s3_forcePathStyle : value;
}.

(** The options object passed to [ftp.Client.access]. *)
Record AccessOptions : Type := mkAccessOptions {
  ftp_host : value;
  ftp_port : value;
  ftp_user : value;
  ftp_password : value;
  ftp_secure : value;
  ftp_secureOptions : value;
}.

(** [ConnectConfig], as [SFTPConnection.connect] fills it. *)
Record ConnectConfig : Type := mkConnectConfig {
  sftp_host : value;
  sftp_port : value;
  sftp_username : value;
  sftp_password : value;
  sftp_privateKey : value;
  sftp_passphrase : value;
}.

(** The calls the program makes to the drivers. *)
Inductive DriverCall : Type :=
  | S3ClientNew (c : handle) (cfg : S3ClientConfig)
  | S3ClientDestroy (c : handle)
  | FtpClientNew (c : handle)
  | FtpSetVerbose (c : handle) (verbose : bool)
  | FtpAccess (c : handle) (opts : AccessOptions)
  | FtpClose (c : handle)
  | SftpClientNew (c : handle)
  | SftpConnect (c : handle) (opts : ConnectConfig)
  | SftpEnd (c : handle).

(** The driver calls that talk to the remote server.  Building a client object
    and [S3Client.destroy] are local; [access], [connect], [close] and [end]
    open or close a session with the server. *)
Definition is_network_call (c : DriverCall) : bool :=
  match c with
  | FtpAccess _ _ | FtpClose _ | SftpConnect _ _ | SftpEnd _ => true
  | _ => false
  end.

(** The handshakes among the driver calls. *)
Definition is_handshake (c : DriverCall) : bool :=
  match c with
  | FtpAccess _ _ | SftpConnect _ _ => true
  | _ => false
  end.

(** How the constructor of a driver client ends: it returns the client, or
    it throws. *)
Inductive CtorOutcome : Type :=
  | Constructs
  | CtorThrows (e : js_exn).

(** How an awaited driver promise settles. *)
Inductive DriverOutcome : Type :=
  | Resolves
  | Rejects (cause : js_exn).

(** ** The world outside an instance *)

Record World : Type := mkWorld {
  heap : gmap nat (gmap string value);
  calls : list DriverCall;      (* oldest call first *)
  next_handle : nat;            (* identity of the next client object *)
}.

Definition log_call (c : DriverCall) (w : World) : World :=
  {| heap := heap w; calls := calls w ++ [c]; next_handle := next_handle w |}.

Definition with_heap (h : gmap nat (gmap string value)) (w : World) : World :=
  {| heap := h; calls := calls w; next_handle := next_handle w |}.

(** ** Computations that may throw *)

Inductive Outcome (A : Type) : Type :=
  | Return (a : A)
  | Throw (e : js_exn).
Arguments Return {A} a.
Arguments Throw {A} e.

(** A computation over a state [S]; a state change made before a [throw]
    stays made.  An [async] method is such a computation: its promise
    resolves when the computation returns and rejects with the value it
    throws. *)
Definition M (S A : Type) : Type := S → Outcome A * S.

Definition ret {S A} (a : A) : M S A := λ s, (Return a, s).

Definition bind {S A B} (m : M S A) (k : A → M S B) : M S B :=
  λ s, match m s with
       | (Return a, s') => k a s'
       | (Throw e, s') => (Throw e, s')
       end.

Definition throw {S A} (e : js_exn) : M S A := λ s, (Throw e, s).

(** [try { m } catch (error) { handler error }] *)
Definition try_catch {S A} (m : M S A) (handler : js_exn → M S A) : M S A :=
  λ s, match m s with
       | (Return a, s') => (Return a, s')
       | (Throw e, s') => handler e s'
       end.

Definition gets {S A} (f : S → A) : M S A := λ s, (Return (f s), s).
Definition modify {S} (f : S → S) : M S unit := λ s, (Return tt, f s).

Notation "'let!' x ':=' m 'in' k" := (bind m (λ x, k))
  (at level 10, x name, m at level 100, k at level 200, only parsing).
Notation "m ;;; k" := (bind m (λ _, k))
  (at level 100, right associativity, only parsing).

(** The state of a method call: the fields of [this] and the world. *)
Section on_instance.
Context {C : Type}.

Definition this_field {A} (f : C → A) : M (C * World) A := gets (λ s, f s.1).

Definition assign (f : C → C) : M (C * World) unit :=
  modify (λ s, (f s.1, s.2)).

(** A synchronous driver call. *)
Definition driver (c : DriverCall) : M (C * World) unit :=
  modify (λ s, (s.1, log_call c s.2)).

(** [await] of a driver promise that settles as [o]: the call is made, then
    the caller resumes, or the rejection is thrown at the [await]. *)
Definition await (c : DriverCall) (o : DriverOutcome) : M (C * World) unit :=
  driver c ;;;
  match o with
  | Resolves => ret tt
  | Rejects cause => throw cause
  end.

(** [{ ...o }] *)
Definition spread (l : loc) : M (C * World) value :=
  λ s, let '(l', h') := alloc (own_props (heap s.2) l) (heap s.2) in
       (Return (VRef l'), (s.1, with_heap h' s.2)).

End on_instance.

(** [new Client(...)]: the object is allocated, with a new identity, and the
    constructor of the driver runs on it; [built] is how that constructor
    ends.  When it throws, the exception leaves the [new] expression. *)
Definition new_client (mk : handle → DriverCall) (built : CtorOutcome) :
    M World handle :=
  λ w, (match built with
        | Constructs => Return (next_handle w)
        | CtorThrows e => Throw e
        end,
        {| heap := heap w; calls := calls w ++ [mk (next_handle w)];
           next_handle := S (next_handle w) |}).

(** A client object is an object, and every object is truthy. *)
Definition client_truthy (c : handle) : bool := true.

(** ** [class S3Connection] *)

Module S3Connection.

Record t : Type := mk {
  client : handle;
  config : loc;
  connected : bool;
}.

Definition set_connected (b : bool) (this : t) : t :=
  {| client := client this; config := config this; connected := b |}.

(** The constructor stores the reference it is given (not a copy), builds
    the client from four properties of the config, and marks the instance
    connected.  It has no [throw] and no [try]: the only exception that
    can leave it is one of [new S3Client], whose outcome is [built]. *)
Definition new (built : CtorOutcome) (cfg : loc) : M World t :=
  let! region := gets (λ w, get_prop (heap w) cfg "region") in
  let! credentials := gets (λ w, get_prop (heap w) cfg "credentials") in
  let! endpoint := gets (λ w, get_prop (heap w) cfg "endpoint") in
  let! forcePathStyle := gets (λ w, get_prop (heap w) cfg "forcePathStyle") in
  let s3Config :=
    {| s3_region := region; s3_credentials := credentials;
       s3_endpoint := endpoint; s3_forcePathStyle := forcePathStyle |} in
  let! c := new_client (λ c, S3ClientNew c s3Config) built in
  ret {| client := c; config := cfg; connected := true |}.

Definition getClient : M (t * World) handle :=
  let! c := this_field connected in
  if negb c then throw (ErrorInstance "S3 connection not initialized")
  else this_field client.

Definition isConnected : M (t * World) bool := this_field connected.

(** The guard is on [this.client], which the constructor always sets. *)
Definition disconnect : M (t * World) unit :=
  let! c := this_field client in
  if client_truthy c then
    driver (S3ClientDestroy c) ;;;
    assign (set_connected false)
  else ret tt.

Definition getConfig : M (t * World) value :=
  let! cfg := this_field config in
  spread cfg.

End S3Connection.

(** ** [class FTPConnection] *)

Module FTPConnection.

Record t : Type := mk {
  client : handle;
  config : loc;
  connected : bool;
}.

Definition set_connected (b : bool) (this : t) : t :=
  {| client := client this; config := config this; connected := b |}.

(** The constructor stores the reference it is given, builds a client and
    turns its verbose flag off; [connected] keeps its initial value [false].
    [built] is the outcome of [new ftp.Client()]. *)
Definition new (built : CtorOutcome) (cfg : loc) : M World t :=
  let! c := new_client FtpClientNew built in
  modify (log_call (FtpSetVerbose c false)) ;;;
  ret {| client := c; config := cfg; connected := false |}.

(** The argument of [this.client.access]. *)
Definition access_options (h : store) (cfg : loc) : AccessOptions :=
  {| ftp_host := get_prop h cfg "host";
     ftp_port := js_or (get_prop h cfg "port") (VNum 21);
     ftp_user := js_or (get_prop h cfg "user") (VStr "anonymous");
     ftp_password := js_or (get_prop h cfg "password") (VStr "");
     ftp_secure := js_or (get_prop h cfg "secure") (VBool false);
     ftp_secureOptions := get_prop h cfg "secureOptions" |}.

(** [net] is how the promise of [this.client.access] settles. *)
Definition connect (net : DriverOutcome) : M (t * World) unit :=
  try_catch
    (let! c := this_field client in
     let! cfg := this_field config in
     let! opts := gets (λ s, access_options (heap s.2) cfg) in
     await (FtpAccess c opts) net ;;;
     assign (set_connected true))
    (λ error,
     assign (set_connected false) ;;;
     throw (ErrorInstance ("FTP connection failed: " +:+ error_text error))).

Definition getClient : M (t * World) handle :=
  let! c := this_field connected in
  if negb c then throw (ErrorInstance "FTP not connected. Call connect() first.")
  else this_field client.

Definition isConnected : M (t * World) bool := this_field connected.

Definition disconnect : M (t * World) unit :=
  let! c := this_field connected in
  if c then
    let! cl := this_field client in
    driver (FtpClose cl) ;;;
    assign (set_connected false)
  else ret tt.

Definition getConfig : M (t * World) value :=
  let! cfg := this_field config in
  spread cfg.

End FTPConnection.

(** ** [class SFTPConnection] *)

Module SFTPConnection.

Record t : Type := mk {
  client : handle;
  config : loc;
  connected : bool;
}.

Definition set_connected (b : bool) (this : t) : t :=
  {| client := client this; config := config this; connected := b |}.

(** [built] is the outcome of [new SFTPClient()]. *)
Definition new (built : CtorOutcome) (cfg : loc) : M World t :=
  let! c := new_client SftpClientNew built in
  ret {| client := c; config := cfg; connected := false |}.

(** [connectConfig] *)
Definition connect_config (h : store) (cfg : loc) : ConnectConfig :=
  {| sftp_host := get_prop h cfg "host";
     sftp_port := js_or (get_prop h cfg "port") (VNum 22);
     sftp_username := get_prop h cfg "username";
     sftp_password := get_prop h cfg "password";
     sftp_privateKey := get_prop h cfg "privateKey";
     sftp_passphrase := get_prop h cfg "passphrase" |}.

(** [net] is how the promise of [this.client.connect] settles. *)
Definition connect (net : DriverOutcome) : M (t * World) unit :=
  try_catch
    (let! cfg := this_field config in
     let! connectConfig := gets (λ s, connect_config (heap s.2) cfg) in
     let! c := this_field client in
     await (SftpConnect c connectConfig) net ;;;
     assign (set_connected true))
    (λ error,
     assign (set_connected false) ;;;
     throw (ErrorInstance ("SFTP connection failed: " +:+ error_text error))).

Definition getClient : M (t * World) handle :=
  let! c := this_field connected in
  if negb c then throw (ErrorInstance "SFTP not connected. Call connect() first.")
  else this_field client.

Definition isConnected : M (t * World) bool := this_field connected.

(** [net] is how the promise of [this.client.end] settles, when it is
    called; a rejection leaves [connected] as it was. *)
Definition disconnect (net : DriverOutcome) : M (t * World) unit :=
  let! c := this_field connected in
  if c then
    let! cl := this_field client in
    await (SftpEnd cl) net ;;;
    assign (set_connected false)
  else ret tt.

Definition getConfig : M (t * World) value :=
  let! cfg := this_field config in
  spread cfg.

End SFTPConnection.

(** ** Callers

    A caller holds an instance and calls its methods one after another; an
    exception of one call is caught by the caller and does not stop the next
    call.  Between two calls the caller may write a property of any object it
    can reach ([Write]).  [net] is the outcome of the driver promise the
    method awaits. *)

Module FTPCaller.
Import FTPConnection.

Inductive op : Type :=
  | Connect (net : DriverOutcome)
  | GetClient
  | IsConnected
  | Disconnect
  | GetConfig
  | Write (l : loc) (k : string) (x : value).

Definition call (o : op) (s : t * World) : t * World :=
  match o with
  | Connect net => (connect net s).2
  | GetClient => (getClient s).2
  | IsConnected => (isConnected s).2
  | Disconnect => (disconnect s).2
  | GetConfig => (getConfig s).2
  | Write l k x => (s.1, with_heap (set_prop l k x (heap s.2)) s.2)
  end.

Definition run (ops : list op) (s : t * World) : t * World :=
  foldl (λ s o, call o s) s ops.

Definition is_successful_connect (o : op) : bool :=
  match o with
  | Connect Resolves => true
  | _ => false
  end.

End FTPCaller.

Module SFTPCaller.
Import SFTPConnection.

Inductive op : Type :=
  | Connect (net : DriverOutcome)
  | GetClient
  | IsConnected
  | Disconnect (net : DriverOutcome)
  | GetConfig
  | Write (l : loc) (k : string) (x : value).

Definition call (o : op) (s : t * World) : t * World :=
  match o with
  | Connect net => (connect net s).2
  | GetClient => (getClient s).2
  | IsConnected => (isConnected s).2
  | Disconnect net => (disconnect net s).2
  | GetConfig => (getConfig s).2
  | Write l k x => (s.1, with_heap (set_prop l k x (heap s.2)) s.2)
  end.

Definition run (ops : list op) (s : t * World) : t * World :=
  foldl (λ s o, call o s) s ops.

Definition is_successful_connect (o : op) : bool :=
  match o with
  | Connect Resolves => true
  | _ => false
  end.

End SFTPCaller.

(** What a caller reads and writes through a value it holds. *)

(** [v.k1.k2...kn] *)
Fixpoint read_path (h : store) (v : value) (p : list string) : value :=
  match p with
  | [] => v
  | k :: p' =>
      match v with
      | VRef l => read_path h (get_prop h l k) p'
      | _ => VUndef
      end
  end.

(** [v.k1.k2...kn = x]; the store is unchanged when the path does not lead
    to an object. *)
Fixpoint write_path (h : store) (v : value) (p : list string) (x : value) : store :=
  match p with
  | [] => h
  | [k] =>
      match v with
      | VRef l => set_prop l k x h
      | _ => h
      end
  | k :: p' =>
      match v with
      | VRef l => write_path h (get_prop h l k) p' x
      | _ => h
      end
  end.

(** A store is closed when every reference held in a property of one of its
    objects leads to an object of the store, as in every store a JavaScript
    program can build. *)
Definition value_in (h : store) (v : value) : Prop :=
  match v with
  | VRef l => is_Some (h !! l)
  | _ => True
  end.

Global Instance value_in_dec h v : Decision (value_in h v).
Proof. destruct v; simpl; apply _. Defined.

Definition closed_store (h : store) : Prop :=
  map_Forall (λ _ o, map_Forall (λ _ v, value_in h v) o) h.

Global Instance closed_store_dec h : Decision (closed_store h).
Proof. unfold closed_store. apply _. Defined.

(** What a caller observes of a [getConfig] that copies the top level of the
    config, an object with properties [o]: the call returns a reference
    [l1] that was not in the store, to a new object with the properties
    [o], and changes nothing else; after the caller's write [l1.k = x]
    every object that existed before the call is as it was; and a second
    call returns a reference [l2] that was not in the store either, to
    another new object with the properties [o], which reads along every
    path as the config read before the first call.  Neither call changes a
    field of the instance or calls a driver. *)
Definition copies_top_level {C} (getConfig : M (C * World) value)
    (config : C → loc) (this : C) (w : World) (k : string) (x : value) : Prop :=
  ∃ l1 l2 w1 w2 o,
    heap w !! config this = Some o ∧
    getConfig (this, w) = (Return (VRef l1), (this, w1)) ∧
    (l1 ∉ dom (heap w)) ∧
    heap w1 = <[l1 := o]> (heap w) ∧
    calls w1 = calls w ∧
    let h' := write_path (heap w1) (VRef l1) [k] x in
    (∀ l, l ∈ dom (heap w) → h' !! l = heap w !! l) ∧
    getConfig (this, with_heap h' w1) = (Return (VRef l2), (this, w2)) ∧
    (l2 ∉ dom h') ∧
    l2 ≠ l1 ∧
    heap w2 = <[l2 := o]> h' ∧
    calls w2 = calls w ∧
    ∀ k' p, read_path (heap w2) (VRef l2) (k' :: p) =
            read_path (heap w) (VRef (config this)) (k' :: p).

(** ** Example worlds *)

(** [{ region: "us-east-1", credentials: { accessKeyId: "A", secretAccessKey: "S" } }]
    at reference 0, its credentials object at reference 1. *)
Definition w_s3 : World :=
  {| heap := {[ 0 := {[ "region" := VStr "us-east-1"; "credentials" := VRef 1 ]};
                1 := {[ "accessKeyId" := VStr "A"; "secretAccessKey" := VStr "S" ]} ]};
     calls := []; next_handle := 0 |}.

(** [{ host: "ftp.invalid.test", port: 21 }] at reference 0. *)
Definition w_ftp : World :=
  {| heap := {[ 0 := {[ "host" := VStr "ftp.invalid.test"; "port" := VNum 21 ]} ]};
     calls := []; next_handle := 0 |}.

(** [{ host: "sftp.example.com", username: "user", password: "pass" }] at
    reference 0. *)
Definition w_sftp : World :=
  {| heap := {[ 0 := {[ "host" := VStr "sftp.example.com";
                        "username" := VStr "user"; "password" := VStr "pass" ]} ]};
     calls := []; next_handle := 0 |}.

(** Configs that lack the required field: [{ endpoint: "http://localhost:9000" }]
    at reference 0 (no region) and [{ port: 2121 }] at reference 1 (no host). *)
Definition w_incomplete : World :=
  {| heap := {[ 0 := {[ "endpoint" := VStr "http://localhost:9000" ]};
                1 := {[ "port" := VNum 2121 ]} ]};
     calls := []; next_handle := 0 |}.

(** [{ region: "" }] at reference 0: a region that is present and empty. *)
Definition w_empty_region : World :=
  {| heap := {[ 0 := {[ "region" := VStr "" ]} ]}; calls := []; next_handle := 0 |}.

(** The instances the constructors build in the example worlds. *)
Definition s3_fresh : S3Connection.t * World :=
  (S3Connection.mk 0 0 true, (S3Connection.new Constructs 0 w_s3).2).

Definition ftp_fresh : FTPConnection.t * World :=
  (FTPConnection.mk 0 0 false, (FTPConnection.new Constructs 0 w_ftp).2).

Definition sftp_fresh : SFTPConnection.t * World :=
  (SFTPConnection.mk 0 0 false, (SFTPConnection.new Constructs 0 w_sftp).2).

(** The options [FTPConnection.connect] passes for the config of [w_ftp]. *)
Definition ftp_opts : AccessOptions :=
  {| ftp_host := VStr "ftp.invalid.test"; ftp_port := VNum 21;
     ftp_user := VStr "anonymous"; ftp_password := VStr "";
     ftp_secure := VBool false; ftp_secureOptions := VUndef |}.

(** ** Further vocabulary for histories *)

(** A caller of an [S3Connection]; the class has no [connect] method. *)
Module S3Caller.
Import S3Connection.

Inductive op : Type :=
  | GetClient
  | IsConnected
  | Disconnect
  | GetConfig
  | Write (l : loc) (k : string) (x : value).

Definition call (o : op) (s : t * World) : t * World :=
  match o with
  | GetClient => (getClient s).2
  | IsConnected => (isConnected s).2
  | Disconnect => (disconnect s).2
  | GetConfig => (getConfig s).2
  | Write l k x => (s.1, with_heap (set_prop l k x (heap s.2)) s.2)
  end.

Definition run (ops : list op) (s : t * World) : t * World :=
  foldl (λ s o, call o s) s ops.

Definition is_disconnect (o : op) : bool :=
  match o with
  | Disconnect => true
  | _ => false
  end.


End S3Caller.

(** The client object a driver call is made on (or builds). *)
Definition call_client (c : DriverCall) : handle :=
  match c with
  | S3ClientNew h _ | S3ClientDestroy h
  | FtpClientNew h | FtpSetVerbose h _ | FtpAccess h _ | FtpClose h
  | SftpClientNew h | SftpConnect h _ | SftpEnd h => h
  end.

(** The [close] calls on the FTP client [h], and their number in a log. *)
Definition is_close_of (h : handle) (c : DriverCall) : bool :=
  match c with
  | FtpClose h' => bool_decide (h' = h)
  | _ => false
  end.

Definition ftp_closes (h : handle) (cs : list DriverCall) : nat :=
  length (List.filter (is_close_of h) cs).

(** The sessions a manager holds open: one when connected, none otherwise. *)
Definition open_sessions (connected : bool) : nat :=
  if connected then 1 else 0.

(** The values for which [v || d] is [d]: [undefined], [null], [false],
    [+0], [-0], [NaN] and the empty string. *)
Definition falsy_values : list value :=
  [VUndef; VNull; VBool false; VNum (Zero false); VNum (Zero true); VNum NaN;
   VStr ""].

(** The calls of a caller that can change [connected]: for FTP every
    [connect()] and every [disconnect()]; for SFTP every [connect()] and
    the [disconnect()] calls whose [end()] resolves. *)
Definition ftp_is_lifecycle (o : FTPCaller.op) : bool :=
  match o with
  | FTPCaller.Connect _ | FTPCaller.Disconnect => true
  | _ => false
  end.

Definition sftp_is_lifecycle (o : SFTPCaller.op) : bool :=
  match o with
  | SFTPCaller.Connect _ | SFTPCaller.Disconnect Resolves => true
  | _ => false
  end.



(** What a call sequence leaves in place, from state [s] to state [s']: the
    fields [client] and [config] stay, no client is built, and the driver
    calls made are on the instance's own client. *)
Definition frame_of {C} (client : C → handle) (config : C → loc)
    (s s' : C * World) : Prop :=
  client s'.1 = client s.1 ∧ config s'.1 = config s.1 ∧
  next_handle s'.2 = next_handle s.2 ∧
  ∃ cs, calls s'.2 = calls s.2 ++ cs ∧
        Forall (λ c, call_client c = client s.1) cs.


(** The [connect()] calls of a caller. *)
Definition ftp_is_connect (o : FTPCaller.op) : bool :=
  match o with
  | FTPCaller.Connect _ => true
  | _ => false
  end.

Definition sftp_is_connect (o : SFTPCaller.op) : bool :=
  match o with
  | SFTPCaller.Connect _ => true
  | _ => false
  end.

(** * Properties *)

(** ** The methods, equation by equation *)

Section method_equations.

Lemma s3_new_eq cfg w :
  S3Connection.new Constructs cfg w =
  (Return (S3Connection.mk (next_handle w) cfg true),
   {| heap := heap w;
      calls := calls w ++
        [S3ClientNew (next_handle w)
           {| s3_region := get_prop (heap w) cfg "region";
              s3_credentials := get_prop (heap w) cfg "credentials";
              s3_endpoint := get_prop (heap w) cfg "endpoint";
              s3_forcePathStyle := get_prop (heap w) cfg "forcePathStyle" |}];
      next_handle := S (next_handle w) |}).
Proof. reflexivity. Qed.

Lemma ftp_new_eq cfg w :
  FTPConnection.new Constructs cfg w =
  (Return (FTPConnection.mk (next_handle w) cfg false),
   {| heap := heap w;
      calls := (calls w ++ [FtpClientNew (next_handle w)])
               ++ [FtpSetVerbose (next_handle w) false];
      next_handle := S (next_handle w) |}).
Proof. reflexivity. Qed.

Lemma sftp_new_eq cfg w :
  SFTPConnection.new Constructs cfg w =
  (Return (SFTPConnection.mk (next_handle w) cfg false),
   {| heap := heap w;
      calls := calls w ++ [SftpClientNew (next_handle w)];
      next_handle := S (next_handle w) |}).
Proof. reflexivity. Qed.

(** An exception of the driver's constructor leaves the constructor of the
    manager as it is. *)
Lemma s3_new_throws e cfg w :
  S3Connection.new (CtorThrows e) cfg w =
  (Throw e,
   {| heap := heap w;
      calls := calls w ++
        [S3ClientNew (next_handle w)
           {| s3_region := get_prop (heap w) cfg "region";
              s3_credentials := get_prop (heap w) cfg "credentials";
              s3_endpoint := get_prop (heap w) cfg "endpoint";
              s3_forcePathStyle := get_prop (heap w) cfg "forcePathStyle" |}];
      next_handle := S (next_handle w) |}).
Proof. reflexivity. Qed.

Lemma ftp_new_throws e cfg w :
  FTPConnection.new (CtorThrows e) cfg w =
  (Throw e,
   {| heap := heap w; calls := calls w ++ [FtpClientNew (next_handle w)];
      next_handle := S (next_handle w) |}).
Proof. reflexivity. Qed.

Lemma sftp_new_throws e cfg w :
  SFTPConnection.new (CtorThrows e) cfg w =
  (Throw e,
   {| heap := heap w; calls := calls w ++ [SftpClientNew (next_handle w)];
      next_handle := S (next_handle w) |}).
Proof. reflexivity. Qed.

(** The handshake is attempted whatever [connected] holds. *)
Lemma ftp_connect_resolves this w :
  FTPConnection.connect Resolves (this, w) =
  (Return tt,
   (FTPConnection.set_connected true this,
    log_call (FtpAccess (FTPConnection.client this)
                (FTPConnection.access_options (heap w) (FTPConnection.config this))) w)).
Proof. reflexivity. Qed.

Lemma ftp_connect_rejects cause this w :
  FTPConnection.connect (Rejects cause) (this, w) =
  (Throw (ErrorInstance ("FTP connection failed: " +:+ error_text cause)),
   (FTPConnection.set_connected false this,
    log_call (FtpAccess (FTPConnection.client this)
                (FTPConnection.access_options (heap w) (FTPConnection.config this))) w)).
Proof. reflexivity. Qed.

Lemma sftp_connect_resolves this w :
  SFTPConnection.connect Resolves (this, w) =
  (Return tt,
   (SFTPConnection.set_connected true this,
    log_call (SftpConnect (SFTPConnection.client this)
                (SFTPConnection.connect_config (heap w) (SFTPConnection.config this))) w)).
Proof. reflexivity. Qed.

Lemma sftp_connect_rejects cause this w :
  SFTPConnection.connect (Rejects cause) (this, w) =
  (Throw (ErrorInstance ("SFTP connection failed: " +:+ error_text cause)),
   (SFTPConnection.set_connected false this,
    log_call (SftpConnect (SFTPConnection.client this)
                (SFTPConnection.connect_config (heap w) (SFTPConnection.config this))) w)).
Proof. reflexivity. Qed.

Lemma ftp_disconnect_connected this w :
  FTPConnection.connected this = true →
  FTPConnection.disconnect (this, w) =
  (Return tt, (FTPConnection.set_connected false this,
               log_call (FtpClose (FTPConnection.client this)) w)).
Proof. intros H. unfold FTPConnection.disconnect, bind, this_field, gets. simpl. rewrite H. reflexivity. Qed.

Lemma ftp_disconnect_idle this w :
  FTPConnection.connected this = false →
  FTPConnection.disconnect (this, w) = (Return tt, (this, w)).
Proof. intros H. unfold FTPConnection.disconnect, bind, this_field, gets. simpl. rewrite H. reflexivity. Qed.

Lemma sftp_disconnect_connected this w :
  SFTPConnection.connected this = true →
  SFTPConnection.disconnect Resolves (this, w) =
  (Return tt, (SFTPConnection.set_connected false this,
               log_call (SftpEnd (SFTPConnection.client this)) w)).
Proof. intros H. unfold SFTPConnection.disconnect, bind, this_field, gets. simpl. rewrite H. reflexivity. Qed.

Lemma sftp_disconnect_idle net this w :
  SFTPConnection.connected this = false →
  SFTPConnection.disconnect net (this, w) = (Return tt, (this, w)).
Proof. intros H. unfold SFTPConnection.disconnect, bind, this_field, gets. simpl. rewrite H. reflexivity. Qed.

Lemma s3_disconnect_eq this w :
  S3Connection.disconnect (this, w) =
  (Return tt, (S3Connection.set_connected false this,
               log_call (S3ClientDestroy (S3Connection.client this)) w)).
Proof. reflexivity. Qed.

End method_equations.

(** ** What a caller's calls preserve *)

Section caller_invariants.

Lemma ftp_call_keeps_idle o s :
  FTPCaller.is_successful_connect o = false →
  FTPConnection.connected s.1 = false →
  FTPConnection.connected (FTPCaller.call o s).1 = false.
Proof.
  destruct s as [this w]; intros Ho Hc; simpl in Hc.
  destruct o as [[|cause]| | | | |l k x]; simpl in *; try done.
  - unfold FTPConnection.getClient, bind, this_field, gets; simpl.
    by rewrite Hc.
  - by rewrite ftp_disconnect_idle.
Qed.

Lemma ftp_run_keeps_idle ops s :
  Forall (λ o, FTPCaller.is_successful_connect o = false) ops →
  FTPConnection.connected s.1 = false →
  FTPConnection.connected (FTPCaller.run ops s).1 = false.
Proof.
  intros Hops; revert s.
  induction Hops as [|o ops Ho _ IH]; intros s Hc; [done|].
  apply IH. by apply ftp_call_keeps_idle.
Qed.

Lemma sftp_call_keeps_idle o s :
  SFTPCaller.is_successful_connect o = false →
  SFTPConnection.connected s.1 = false →
  SFTPConnection.connected (SFTPCaller.call o s).1 = false.
Proof.
  destruct s as [this w]; intros Ho Hc; simpl in Hc.
  destruct o as [[|cause]| | |net| |l k x]; simpl in *; try done.
  - unfold SFTPConnection.getClient, bind, this_field, gets; simpl.
    by rewrite Hc.
  - by rewrite sftp_disconnect_idle.
Qed.

Lemma sftp_run_keeps_idle ops s :
  Forall (λ o, SFTPCaller.is_successful_connect o = false) ops →
  SFTPConnection.connected s.1 = false →
  SFTPConnection.connected (SFTPCaller.run ops s).1 = false.
Proof.
  intros Hops; revert s.
  induction Hops as [|o ops Ho _ IH]; intros s Hc; [done|].
  apply IH. by apply sftp_call_keeps_idle.
Qed.

(** The guard of [getClient], class by class. *)
Lemma s3_getClient_eq this w :
  S3Connection.getClient (this, w) =
  (if S3Connection.connected this then Return (S3Connection.client this)
   else Throw (ErrorInstance "S3 connection not initialized"), (this, w)).
Proof.
  unfold S3Connection.getClient, bind, this_field, gets; simpl.
  by destruct (S3Connection.connected this).
Qed.

Lemma ftp_getClient_eq this w :
  FTPConnection.getClient (this, w) =
  (if FTPConnection.connected this then Return (FTPConnection.client this)
   else Throw (ErrorInstance "FTP not connected. Call connect() first."), (this, w)).
Proof.
  unfold FTPConnection.getClient, bind, this_field, gets; simpl.
  by destruct (FTPConnection.connected this).
Qed.

Lemma sftp_getClient_eq this w :
  SFTPConnection.getClient (this, w) =
  (if SFTPConnection.connected this then Return (SFTPConnection.client this)
   else Throw (ErrorInstance "SFTP not connected. Call connect() first."), (this, w)).
Proof.
  unfold SFTPConnection.getClient, bind, this_field, gets; simpl.
  by destruct (SFTPConnection.connected this).
Qed.

End caller_invariants.

(** ** The scenarios of the specification, run on the embedding *)

Section scenarios.

(** Object storage config [{ region: "us-east-1", ... }]: constructed, then
    [isConnected()] is true, and the only driver call is the construction
    of the client. *)
Example scenario_s3_construct :
  S3Connection.new Constructs 0 w_s3 = (Return s3_fresh.1, s3_fresh.2) ∧
  (S3Connection.isConnected s3_fresh).1 = Return true ∧
  List.filter is_network_call (calls s3_fresh.2) = [].
Proof. by repeat split. Qed.

(** FTP config [{ host: "ftp.invalid.test", port: 21 }], host not reachable:
    [connect()] throws and [isConnected()] is false. *)
Example scenario_ftp_unreachable :
  let r := FTPConnection.connect
             (Rejects (ErrorInstance "getaddrinfo ENOTFOUND ftp.invalid.test"))
             ftp_fresh in
  r.1 = Throw (ErrorInstance
          "FTP connection failed: getaddrinfo ENOTFOUND ftp.invalid.test") ∧
  (FTPConnection.isConnected r.2).1 = Return false.
Proof. by repeat split. Qed.

(** SFTP config with credentials: [connect()] returns, [getClient()] gives
    the client, [disconnect()] returns, and [getClient()] then throws. *)
Example scenario_sftp_round :
  let s1 := SFTPConnection.connect Resolves sftp_fresh in
  let s2 := SFTPConnection.disconnect Resolves s1.2 in
  s1.1 = Return tt ∧
  (SFTPConnection.getClient s1.2).1 = Return 0 ∧
  s2.1 = Return tt ∧
  (SFTPConnection.getClient s2.2).1 =
    Throw (ErrorInstance "SFTP not connected. Call connect() first.") ∧
  calls s2.2.2 =
    [SftpClientNew 0;
     SftpConnect 0 {| sftp_host := VStr "sftp.example.com"; sftp_port := VNum 22;
                      sftp_username := VStr "user"; sftp_password := VStr "pass";
                      sftp_privateKey := VUndef; sftp_passphrase := VUndef |};
     SftpEnd 0].
Proof. by repeat split. Qed.

(** A config the driver refuses: when [new S3Client] throws, as the SDK does
    for an empty region, the same error leaves [new S3Connection], and no
    manager is built. *)
Example scenario_s3_driver_refuses :
  get_prop (heap w_empty_region) 0 "region" = VStr "" ∧
  (S3Connection.new (CtorThrows (ErrorInstance "Region is missing")) 0 w_empty_region).1
    = Throw (ErrorInstance "Region is missing").
Proof. by split. Qed.

(** The defaults of [FTPConnection.connect]: a port of 0 and an empty user
    are falsy and are replaced. *)
Example ftp_defaults :
  FTPConnection.access_options
    {[ 0 := {[ "host" := VStr "h"; "port" := VNum 0; "user" := VStr "";
               "secure" := VBool true ]} ]} 0 =
  {| ftp_host := VStr "h"; ftp_port := VNum 21; ftp_user := VStr "anonymous";
     ftp_password := VStr ""; ftp_secure := VBool true;
     ftp_secureOptions := VUndef |}.
Proof. reflexivity. Qed.

End scenarios.

(** ** Construction *)

(** C1, as stated, fails: a config without [region] (for [S3Connection]) or
    without [host] (for [FTPConnection]) is accepted: the constructor of the
    driver client returns for it, and the constructor of the manager then
    returns an instance and throws nothing. *)
Lemma construction_accepts_incomplete_config :
  get_prop (heap w_incomplete) 0 "region" = VUndef ∧
  get_prop (heap w_incomplete) 1 "host" = VUndef ∧
  (S3Connection.new Constructs 0 w_incomplete).1 = Return (S3Connection.mk 0 0 true) ∧
  (FTPConnection.new Constructs 1 w_incomplete).1 = Return (FTPConnection.mk 0 1 false) ∧
  (∀ e, (S3Connection.new Constructs 0 w_incomplete).1 ≠ Throw e) ∧
  (∀ e, (FTPConnection.new Constructs 1 w_incomplete).1 ≠ Throw e).
Proof. repeat split; done. Qed.

(** C1, amended: for every backend variant the constructor of the manager
    checks no field of the config; a config that lacks its required field
    is handled as any other.  What construction does is decided by the
    constructor of the driver client alone: when that returns, construction
    returns a manager that stores the reference it was given (the S3 manager
    connected, the FTP and SFTP managers not); when that throws, the same
    value leaves construction, unwrapped.  In both cases the store is left
    as it was and the driver calls made are local ones (no network call). *)
Theorem construction_checks_no_field (built : CtorOutcome) (cfg : loc) (w : World) :
  (∃ w' cs, S3Connection.new built cfg w =
       (match built with
        | Constructs => Return (S3Connection.mk (next_handle w) cfg true)
        | CtorThrows e => Throw e
        end, w') ∧
     heap w' = heap w ∧ calls w' = calls w ++ cs ∧
     forallb (λ c, negb (is_network_call c)) cs = true) ∧
  (∃ w' cs, FTPConnection.new built cfg w =
       (match built with
        | Constructs => Return (FTPConnection.mk (next_handle w) cfg false)
        | CtorThrows e => Throw e
        end, w') ∧
     heap w' = heap w ∧ calls w' = calls w ++ cs ∧
     forallb (λ c, negb (is_network_call c)) cs = true) ∧
  (∃ w' cs, SFTPConnection.new built cfg w =
       (match built with
        | Constructs => Return (SFTPConnection.mk (next_handle w) cfg false)
        | CtorThrows e => Throw e
        end, w') ∧
     heap w' = heap w ∧ calls w' = calls w ++ cs ∧
     forallb (λ c, negb (is_network_call c)) cs = true).
Proof.
  split_and!.
  - destruct built as [|e]; [rewrite s3_new_eq | rewrite s3_new_throws];
      eexists _, [_]; split_and!; reflexivity.
  - destruct built as [|e]; [rewrite ftp_new_eq | rewrite ftp_new_throws].
    + eexists _, [FtpClientNew (next_handle w); FtpSetVerbose (next_handle w) false].
      split_and!; try reflexivity. simpl. by rewrite <-app_assoc.
    + eexists _, [_]; split_and!; reflexivity.
  - destruct built as [|e]; [rewrite sftp_new_eq | rewrite sftp_new_throws];
      eexists _, [_]; split_and!; reflexivity.
Qed.

(** ** [connect] after [disconnect] *)

(** C2, as stated, fails: an FTP manager that was connected and then
    disconnected accepts a further [connect()]; the call makes a second
    handshake, returns normally, and the manager is connected again. *)
Lemma reconnect_after_disconnect_is_accepted :
  FTPConnection.new Constructs 0 w_ftp = (Return ftp_fresh.1, ftp_fresh.2) ∧
  let s := FTPCaller.run [FTPCaller.Connect Resolves; FTPCaller.Disconnect] ftp_fresh in
  FTPConnection.connected s.1 = false ∧
  (FTPConnection.connect Resolves s).1 = Return tt ∧
  (∀ e, (FTPConnection.connect Resolves s).1 ≠ Throw e) ∧
  FTPConnection.connected (FTPConnection.connect Resolves s).2.1 = true ∧
  calls (FTPConnection.connect Resolves s).2.2 =
    [FtpClientNew 0; FtpSetVerbose 0 false; FtpAccess 0 ftp_opts; FtpClose 0;
     FtpAccess 0 ftp_opts].
Proof. repeat split; done. Qed.

(** C2, amended: for every FTP or SFTP manager that is connected and is then
    disconnected, a further [connect()] is not rejected by any check of the
    state: it makes a new handshake with the same client; when the handshake
    succeeds the call returns and the manager is connected again, and when
    it fails the call throws the connection-failed error and the manager
    stays not connected. *)
Theorem connect_after_disconnect_handshakes
    (f : FTPConnection.t) (g : SFTPConnection.t) (w : World) :
  FTPConnection.connected f = true →
  SFTPConnection.connected g = true →
  (let s := (FTPConnection.disconnect (f, w)).2 in
   let hs := FtpAccess (FTPConnection.client f)
               (FTPConnection.access_options (heap w) (FTPConnection.config f)) in
   FTPConnection.connected s.1 = false ∧
   FTPConnection.connect Resolves s =
     (Return tt, (FTPConnection.set_connected true f, log_call hs s.2)) ∧
   ∀ cause, FTPConnection.connect (Rejects cause) s =
     (Throw (ErrorInstance ("FTP connection failed: " +:+ error_text cause)),
      (FTPConnection.set_connected false f, log_call hs s.2))) ∧
  (let s := (SFTPConnection.disconnect Resolves (g, w)).2 in
   let hs := SftpConnect (SFTPConnection.client g)
               (SFTPConnection.connect_config (heap w) (SFTPConnection.config g)) in
   SFTPConnection.connected s.1 = false ∧
   SFTPConnection.connect Resolves s =
     (Return tt, (SFTPConnection.set_connected true g, log_call hs s.2)) ∧
   ∀ cause, SFTPConnection.connect (Rejects cause) s =
     (Throw (ErrorInstance ("SFTP connection failed: " +:+ error_text cause)),
      (SFTPConnection.set_connected false g, log_call hs s.2))).
Proof.
  intros Hf Hg. split.
  - rewrite ftp_disconnect_connected by done. cbv zeta; cbn [fst snd].
    split_and!; [done | by rewrite ftp_connect_resolves |].
    intros cause. by rewrite ftp_connect_rejects.
  - rewrite sftp_disconnect_connected by done. cbv zeta; cbn [fst snd].
    split_and!; [done | by rewrite sftp_connect_resolves |].
    intros cause. by rewrite sftp_connect_rejects.
Qed.

Lemma connect_after_disconnect_handshakes_witness :
  FTPConnection.connected (FTPConnection.mk 0 0 true) = true ∧
  SFTPConnection.connected (SFTPConnection.mk 0 0 true) = true ∧
  FTPConnection.connect Resolves
    (FTPConnection.disconnect (FTPConnection.mk 0 0 true, w_ftp)).2 =
  (Return tt,
   (FTPConnection.mk 0 0 true,
    log_call (FtpAccess 0 (FTPConnection.access_options (heap w_ftp) 0))
      (FTPConnection.disconnect (FTPConnection.mk 0 0 true, w_ftp)).2.2)).
Proof.
  split; [reflexivity | split; [reflexivity |]].
  exact (proj1 (proj2 (proj1
    (connect_after_disconnect_handshakes
       (FTPConnection.mk 0 0 true) (SFTPConnection.mk 0 0 true) w_ftp
       eq_refl eq_refl)))).
Defined.

(** ** [connect] on a connected manager *)

(** C3, as stated, fails: on a connected FTP manager a second [connect()]
    calls the driver's [access] a second time; and when that second
    handshake fails the manager is left not connected, so the call is not a
    no-op. *)
Lemma second_connect_handshakes_again :
  let s := FTPCaller.run [FTPCaller.Connect Resolves] ftp_fresh in
  FTPConnection.connected s.1 = true ∧
  calls s.2 = [FtpClientNew 0; FtpSetVerbose 0 false; FtpAccess 0 ftp_opts] ∧
  calls (FTPConnection.connect Resolves s).2.2 =
    [FtpClientNew 0; FtpSetVerbose 0 false; FtpAccess 0 ftp_opts; FtpAccess 0 ftp_opts] ∧
  calls (FTPConnection.connect Resolves s).2.2 ≠ calls s.2 ∧
  length (List.filter is_handshake (calls (FTPConnection.connect Resolves s).2.2)) = 2 ∧
  FTPConnection.connected
    (FTPConnection.connect (Rejects (ErrorInstance "Timeout")) s).2.1 = false.
Proof. repeat split; done. Qed.

(** C3, amended: for every FTP or SFTP manager already connected, a second
    [connect()] makes one more handshake with the driver, on the same client;
    the manager afterwards holds the same handle reference as before; when
    the second handshake succeeds the manager stays connected and
    [getClient()] returns that handle, and when it fails the call throws and
    the manager is no longer connected. *)
Theorem connect_when_connected
    (f : FTPConnection.t) (g : SFTPConnection.t) (w : World) (net : DriverOutcome) :
  FTPConnection.connected f = true →
  SFTPConnection.connected g = true →
  (let r := FTPConnection.connect net (f, w) in
   FTPConnection.client r.2.1 = FTPConnection.client f ∧
   calls r.2.2 = calls w ++
     [FtpAccess (FTPConnection.client f)
        (FTPConnection.access_options (heap w) (FTPConnection.config f))] ∧
   match net with
   | Resolves =>
       r.1 = Return tt ∧ FTPConnection.connected r.2.1 = true ∧
       (FTPConnection.getClient r.2).1 = Return (FTPConnection.client f)
   | Rejects cause =>
       r.1 = Throw (ErrorInstance ("FTP connection failed: " +:+ error_text cause)) ∧
       FTPConnection.connected r.2.1 = false
   end) ∧
  (let r := SFTPConnection.connect net (g, w) in
   SFTPConnection.client r.2.1 = SFTPConnection.client g ∧
   calls r.2.2 = calls w ++
     [SftpConnect (SFTPConnection.client g)
        (SFTPConnection.connect_config (heap w) (SFTPConnection.config g))] ∧
   match net with
   | Resolves =>
       r.1 = Return tt ∧ SFTPConnection.connected r.2.1 = true ∧
       (SFTPConnection.getClient r.2).1 = Return (SFTPConnection.client g)
   | Rejects cause =>
       r.1 = Throw (ErrorInstance ("SFTP connection failed: " +:+ error_text cause)) ∧
       SFTPConnection.connected r.2.1 = false
   end).
Proof.
  intros _ _. destruct net as [|cause].
  - rewrite ftp_connect_resolves, sftp_connect_resolves. by repeat split.
  - rewrite ftp_connect_rejects, sftp_connect_rejects. by repeat split.
Qed.

Lemma connect_when_connected_witness :
  FTPConnection.connected (FTPConnection.mk 0 0 true) = true ∧
  SFTPConnection.connected (SFTPConnection.mk 0 0 true) = true ∧
  calls (FTPConnection.connect Resolves (FTPConnection.mk 0 0 true, w_ftp)).2.2 =
    calls w_ftp ++ [FtpAccess 0 (FTPConnection.access_options (heap w_ftp) 0)].
Proof.
  split; [reflexivity | split; [reflexivity |]].
  exact (proj1 (proj2 (proj1
    (connect_when_connected
       (FTPConnection.mk 0 0 true) (SFTPConnection.mk 0 0 true) w_ftp Resolves
       eq_refl eq_refl)))).
Defined.

(** ** [getConfig] *)

Section getConfig_copy.

Lemma get_prop_value_in h l k :
  closed_store h → value_in h (get_prop h l k).
Proof.
  intros Hc. unfold get_prop.
  destruct (h !! l) as [o|] eqn:Hl; simpl; [|done].
  destruct (o !! k) as [v|] eqn:Hk; simpl; [|done].
  exact (Hc l o Hl k v Hk).
Qed.

(** Reading along a path only visits objects of a closed store. *)
Lemma read_path_agree h h2 p : ∀ v,
  closed_store h →
  (∀ l, is_Some (h !! l) → h2 !! l = h !! l) →
  value_in h v →
  read_path h2 v p = read_path h v p.
Proof.
  induction p as [|k p IH]; intros v Hc Hag Hv; [done|].
  destruct v as [| | | | |l]; simpl; try done.
  simpl in Hv.
  assert (get_prop h2 l k = get_prop h l k) as ->.
  { unfold get_prop. by rewrite Hag. }
  apply IH; [done..|]. by apply get_prop_value_in.
Qed.

(** The spread builds a new object that holds the values of the properties of
    the old one; writing a property of the new object leaves every older
    object as it was, and a second spread reads as the first one did. *)
Lemma spread_top_level_copy {C} (this : C) (w : World) (cfg : loc)
    (k : string) (x : value) :
  closed_store (heap w) →
  is_Some (heap w !! cfg) →
  copies_top_level (λ s, spread cfg s) (λ _, cfg) this w k x.
Proof.
  intros Hclosed [o Ho]. unfold copies_top_level.
  set (h := heap w) in *.
  set (l1 := fresh (dom h)).
  assert (Hl1 : l1 ∉ dom h) by apply is_fresh.
  assert (Hne : cfg ≠ l1).
  { intros ->. apply Hl1, elem_of_dom. by exists o. }
  set (h' := <[l1 := <[k := x]> o]> (<[l1 := o]> h)).
  set (l2 := fresh (dom h')).
  assert (Hl2 : l2 ∉ dom h') by apply is_fresh.
  assert (Hcfg' : h' !! cfg = Some o).
  { unfold h'. by rewrite !lookup_insert_ne. }
  exists l1, l2, (with_heap (<[l1 := o]> h) w),
         (with_heap (<[l2 := o]> h') (with_heap h' (with_heap (<[l1 := o]> h) w))), o.
  split; [done|].
  split; [unfold spread, alloc, own_props; simpl; fold h; by rewrite Ho|].
  split; [done|]. split; [done|]. split; [done|].
  simpl. unfold set_prop. rewrite lookup_insert_eq; simpl. fold h'.
  split.
  { intros l Hl. unfold h'. rewrite !lookup_insert_ne; [done|..]; by intros ->. }
  split.
  { unfold spread, alloc, own_props; simpl. fold l2. by rewrite Hcfg'. }
  split; [done|].
  split.
  { intros E. apply Hl2. rewrite E. unfold h'. rewrite dom_insert_L. set_solver. }
  split; [done|]. split; [done|].
  intros k' p. simpl.
  assert (get_prop (<[l2 := o]> h') l2 k' = get_prop h cfg k') as ->.
  { unfold get_prop. by rewrite lookup_insert_eq, Ho. }
  apply read_path_agree; [done| |by apply get_prop_value_in].
  intros l Hl. apply elem_of_dom in Hl.
  rewrite lookup_insert_ne.
  - unfold h'. rewrite !lookup_insert_ne; [done|..]; by intros ->.
  - intros <-. apply Hl2. unfold h'. rewrite !dom_insert_L. set_solver.
Qed.

End getConfig_copy.

(** C4, as stated, fails for nested fields: the object [getConfig()] returns
    shares the credentials object of the config, so writing
    [accessKeyId] through the returned value changes what the next
    [getConfig()] returns and what the manager's own config holds. *)
Lemma getConfig_shares_nested_objects :
  (S3Connection.getConfig s3_fresh).1 = Return (VRef 2) ∧
  let s1 := (S3Connection.getConfig s3_fresh).2 in
  let path := ["credentials"; "accessKeyId"] in
  read_path (heap s1.2) (VRef 2) path = VStr "A" ∧
  let h' := write_path (heap s1.2) (VRef 2) path (VStr "EVIL") in
  let r2 := S3Connection.getConfig (s1.1, with_heap h' s1.2) in
  r2.1 = Return (VRef 3) ∧
  read_path (heap r2.2.2) (VRef 3) path = VStr "EVIL" ∧
  read_path (heap s3_fresh.2) (VRef (S3Connection.config s3_fresh.1)) path = VStr "A" ∧
  read_path h' (VRef (S3Connection.config s1.1)) path = VStr "EVIL".
Proof. vm_compute. repeat split. Qed.

(** C4, amended: for every manager whose config is an object of a closed
    store, [getConfig()] returns a reference to a new object that holds
    exactly the properties of the manager's config, with the same values (a
    copy of the top level; nested objects are shared), and changes nothing
    else.  Writing a top-level property of the returned object changes no
    object that existed before the call, so not the manager's config, and
    no field of the manager; and a subsequent [getConfig()] returns a
    reference to another new object, with the properties the config had,
    that reads along every path as the config did before. *)
Theorem getConfig_top_level_copy
    (a : S3Connection.t) (f : FTPConnection.t) (g : SFTPConnection.t)
    (w : World) (k : string) (x : value) :
  closed_store (heap w) →
  is_Some (heap w !! S3Connection.config a) →
  is_Some (heap w !! FTPConnection.config f) →
  is_Some (heap w !! SFTPConnection.config g) →
  copies_top_level S3Connection.getConfig S3Connection.config a w k x ∧
  copies_top_level FTPConnection.getConfig FTPConnection.config f w k x ∧
  copies_top_level SFTPConnection.getConfig SFTPConnection.config g w k x.
Proof.
  intros Hc Ha Hf Hg. split_and!.
  - exact (spread_top_level_copy a w _ k x Hc Ha).
  - exact (spread_top_level_copy f w _ k x Hc Hf).
  - exact (spread_top_level_copy g w _ k x Hc Hg).
Qed.

Lemma getConfig_top_level_copy_witness :
  closed_store (heap w_s3) ∧
  is_Some (heap w_s3 !! 0) ∧
  copies_top_level S3Connection.getConfig S3Connection.config
    (S3Connection.mk 0 0 true) w_s3 "region" (VStr "eu-west-1").
Proof.
  assert (Hc : closed_store (heap w_s3))
    by (apply (bool_decide_unpack _); vm_compute; exact I).
  assert (H0 : is_Some (heap w_s3 !! 0)) by (eexists; reflexivity).
  split; [exact Hc | split; [exact H0 |]].
  exact (proj1 (getConfig_top_level_copy
    (S3Connection.mk 0 0 true) (FTPConnection.mk 1 0 false)
    (SFTPConnection.mk 2 0 false) w_s3 "region" (VStr "eu-west-1")
    Hc H0 H0 H0)).
Defined.

(** ** A failed handshake *)

Section wrapped_error.

Lemma length_append (s1 s2 : string) :
  String.length (s1 +:+ s2) = String.length s1 + String.length s2.
Proof.
  induction s1 as [|c s1 IH]; [done|].
  change (S (String.length (s1 +:+ s2)) = S (String.length s1 + String.length s2)).
  by rewrite IH.
Qed.

(** The error [connect] throws is never the value the driver rejected with:
    its message is longer. *)
Lemma prefixed_error_is_new (prefix : string) (cause : js_exn) :
  0 < String.length prefix →
  ErrorInstance (prefix +:+ error_text cause) ≠ cause.
Proof.
  intros Hp E. destruct cause as [m|m]; [|done].
  simpl in E. injection E as E.
  apply (f_equal String.length) in E. rewrite length_append in E. lia.
Qed.

End wrapped_error.

(** C5, as stated, fails: the error [connect()] throws does not carry the
    original cause.  It is a plain [Error] built from one string; a driver
    rejection with an [Error] and a rejection with a bare string of the same
    text give the same thrown error, so no reading of the thrown error
    gives the cause back. *)
Lemma connect_error_forgets_cause :
  let c1 := ErrorInstance "getaddrinfo ENOTFOUND ftp.invalid.test" in
  let c2 := OtherThrown "getaddrinfo ENOTFOUND ftp.invalid.test" in
  c1 ≠ c2 ∧
  (FTPConnection.connect (Rejects c1) ftp_fresh).1 =
    Throw (ErrorInstance
      "FTP connection failed: getaddrinfo ENOTFOUND ftp.invalid.test") ∧
  FTPConnection.connect (Rejects c1) ftp_fresh =
    FTPConnection.connect (Rejects c2) ftp_fresh ∧
  ¬ ∃ cause_of : js_exn → js_exn, ∀ cause e,
      (FTPConnection.connect (Rejects cause) ftp_fresh).1 = Throw e →
      cause_of e = cause.
Proof.
  split_and!; [done..|].
  intros [cause_of H].
  pose proof (H (ErrorInstance "getaddrinfo ENOTFOUND ftp.invalid.test") _ eq_refl) as H1.
  pose proof (H (OtherThrown "getaddrinfo ENOTFOUND ftp.invalid.test") _ eq_refl) as H2.
  simpl in H1, H2. congruence.
Qed.

(** C5, amended: for every FTP or SFTP manager, in every state, when the
    driver's handshake is rejected (as for an unreachable host) [connect()]
    throws a new plain [Error] whose message is ["FTP connection failed: "]
    (for SFTP, ["SFTP connection failed: "]) followed by the message of the
    driver's error, or by its string form when it is not an [Error]; the
    thrown value is not the driver's own, and holds nothing but that
    message; [isConnected()] returns false afterward. *)
Theorem connect_failure_is_wrapped
    (f : FTPConnection.t) (g : SFTPConnection.t) (w : World) (cause : js_exn) :
  (let r := FTPConnection.connect (Rejects cause) (f, w) in
   let e := ErrorInstance ("FTP connection failed: " +:+ error_text cause) in
   r.1 = Throw e ∧ e ≠ cause ∧
   FTPConnection.isConnected r.2 = (Return false, r.2)) ∧
  (let r := SFTPConnection.connect (Rejects cause) (g, w) in
   let e := ErrorInstance ("SFTP connection failed: " +:+ error_text cause) in
   r.1 = Throw e ∧ e ≠ cause ∧
   SFTPConnection.isConnected r.2 = (Return false, r.2)).
Proof.
  rewrite ftp_connect_rejects, sftp_connect_rejects.
  split; (split_and!; [done | apply prefixed_error_is_new; simpl; lia | done]).
Qed.

(** ** Retry after a failure *)

(** C10: for every FTP or SFTP manager whose [connect()] has failed, a further
    [connect()] is not blocked: whatever the outcome, it makes a new
    handshake attempt with the driver, and when that handshake succeeds the
    call returns and [isConnected()] is true. *)
Theorem retry_after_failed_connect
    (f : FTPConnection.t) (g : SFTPConnection.t) (w : World) (cause : js_exn) :
  (let s := (FTPConnection.connect (Rejects cause) (f, w)).2 in
   let hs := FtpAccess (FTPConnection.client f)
               (FTPConnection.access_options (heap w) (FTPConnection.config f)) in
   FTPConnection.connected s.1 = false ∧
   (∀ net, calls (FTPConnection.connect net s).2.2 = calls s.2 ++ [hs]) ∧
   (FTPConnection.connect Resolves s).1 = Return tt ∧
   (FTPConnection.isConnected (FTPConnection.connect Resolves s).2).1 = Return true) ∧
  (let s := (SFTPConnection.connect (Rejects cause) (g, w)).2 in
   let hs := SftpConnect (SFTPConnection.client g)
               (SFTPConnection.connect_config (heap w) (SFTPConnection.config g)) in
   SFTPConnection.connected s.1 = false ∧
   (∀ net, calls (SFTPConnection.connect net s).2.2 = calls s.2 ++ [hs]) ∧
   (SFTPConnection.connect Resolves s).1 = Return tt ∧
   (SFTPConnection.isConnected (SFTPConnection.connect Resolves s).2).1 = Return true).
Proof.
  rewrite ftp_connect_rejects, sftp_connect_rejects. cbv zeta; cbn [fst snd].
  split; (split_and!; [done | by intros [|c] | done | done]).
Qed.

(** ** [getClient] and [isConnected] *)

(** C9: for each of the three classes and every state of an instance,
    [getClient()] returns the stored handle exactly when [isConnected()]
    returns true and throws exactly when [isConnected()] returns false;
    neither call changes the state.  After [disconnect()] this is the
    second case. *)
Theorem getClient_agrees_with_isConnected
    (a : S3Connection.t) (f : FTPConnection.t) (g : SFTPConnection.t) (w : World) :
  (((S3Connection.isConnected (a, w)).1 = Return true ↔
    (S3Connection.getClient (a, w)).1 = Return (S3Connection.client a)) ∧
   ((S3Connection.isConnected (a, w)).1 = Return false ↔
    ∃ e, (S3Connection.getClient (a, w)).1 = Throw e) ∧
   (S3Connection.isConnected (a, w)).2 = (a, w) ∧
   (S3Connection.getClient (a, w)).2 = (a, w) ∧
   (S3Connection.isConnected (S3Connection.disconnect (a, w)).2).1 = Return false) ∧
  (((FTPConnection.isConnected (f, w)).1 = Return true ↔
    (FTPConnection.getClient (f, w)).1 = Return (FTPConnection.client f)) ∧
   ((FTPConnection.isConnected (f, w)).1 = Return false ↔
    ∃ e, (FTPConnection.getClient (f, w)).1 = Throw e) ∧
   (FTPConnection.isConnected (f, w)).2 = (f, w) ∧
   (FTPConnection.getClient (f, w)).2 = (f, w) ∧
   (FTPConnection.isConnected (FTPConnection.disconnect (f, w)).2).1 = Return false) ∧
  (((SFTPConnection.isConnected (g, w)).1 = Return true ↔
    (SFTPConnection.getClient (g, w)).1 = Return (SFTPConnection.client g)) ∧
   ((SFTPConnection.isConnected (g, w)).1 = Return false ↔
    ∃ e, (SFTPConnection.getClient (g, w)).1 = Throw e) ∧
   (SFTPConnection.isConnected (g, w)).2 = (g, w) ∧
   (SFTPConnection.getClient (g, w)).2 = (g, w) ∧
   (SFTPConnection.isConnected (SFTPConnection.disconnect Resolves (g, w)).2).1 =
     Return false).
Proof.
  rewrite s3_getClient_eq, ftp_getClient_eq, sftp_getClient_eq.
  split_and!; try done.
  - destruct a as [c l []]; simpl; split; congruence.
  - destruct a as [c l []]; simpl; split; [done | by intros [e ?] | by eexists | done].
  - destruct f as [c l []]; simpl; split; congruence.
  - destruct f as [c l []]; simpl; split; [done | by intros [e ?] | by eexists | done].
  - by destruct f as [c l []].
  - destruct g as [c l []]; simpl; split; congruence.
  - destruct g as [c l []]; simpl; split; [done | by intros [e ?] | by eexists | done].
  - by destruct g as [c l []].
Qed.

(** ** Before the first successful [connect] *)

(** C6: for every FTP or SFTP manager, after construction and after any
    calls of its methods among which no [connect()] succeeded, [getClient()]
    throws the not-connected error and returns no handle, and leaves the
    state as it was.  An S3 manager is connected by its constructor; whenever
    it is not connected its [getClient()] throws as well. *)
Theorem getClient_before_connect_throws
    (cfg : loc) (w : World)
    (ops_f : list FTPCaller.op) (ops_g : list SFTPCaller.op) :
  Forall (λ o, FTPCaller.is_successful_connect o = false) ops_f →
  Forall (λ o, SFTPCaller.is_successful_connect o = false) ops_g →
  (∃ this w1, FTPConnection.new Constructs cfg w = (Return this, w1) ∧
     let s := FTPCaller.run ops_f (this, w1) in
     FTPConnection.getClient s =
       (Throw (ErrorInstance "FTP not connected. Call connect() first."), s)) ∧
  (∃ this w1, SFTPConnection.new Constructs cfg w = (Return this, w1) ∧
     let s := SFTPCaller.run ops_g (this, w1) in
     SFTPConnection.getClient s =
       (Throw (ErrorInstance "SFTP not connected. Call connect() first."), s)) ∧
  (∀ a w', S3Connection.connected a = false →
     S3Connection.getClient (a, w') =
       (Throw (ErrorInstance "S3 connection not initialized"), (a, w'))).
Proof.
  intros Hf Hg. split_and!.
  - rewrite ftp_new_eq. eexists _, _. split; [reflexivity|]. cbv zeta.
    match goal with |- context [FTPCaller.run ops_f ?s0] =>
      pose proof (ftp_run_keeps_idle ops_f s0 Hf eq_refl) as Hidle;
      destruct (FTPCaller.run ops_f s0) as [this' w'] end.
    simpl in Hidle. by rewrite ftp_getClient_eq, Hidle.
  - rewrite sftp_new_eq. eexists _, _. split; [reflexivity|]. cbv zeta.
    match goal with |- context [SFTPCaller.run ops_g ?s0] =>
      pose proof (sftp_run_keeps_idle ops_g s0 Hg eq_refl) as Hidle;
      destruct (SFTPCaller.run ops_g s0) as [this' w'] end.
    simpl in Hidle. by rewrite sftp_getClient_eq, Hidle.
  - intros a w' Ha. by rewrite s3_getClient_eq, Ha.
Qed.

Lemma getClient_before_connect_throws_witness :
  Forall (λ o, FTPCaller.is_successful_connect o = false)
    [FTPCaller.Connect (Rejects (ErrorInstance "ECONNREFUSED")); FTPCaller.Disconnect] ∧
  Forall (λ o, SFTPCaller.is_successful_connect o = false)
    [SFTPCaller.GetConfig] ∧
  ∃ this w1, FTPConnection.new Constructs 0 w_ftp = (Return this, w1) ∧
    let s := FTPCaller.run
      [FTPCaller.Connect (Rejects (ErrorInstance "ECONNREFUSED")); FTPCaller.Disconnect]
      (this, w1) in
    FTPConnection.getClient s =
      (Throw (ErrorInstance "FTP not connected. Call connect() first."), s).
Proof.
  assert (Hf : Forall (λ o, FTPCaller.is_successful_connect o = false)
    [FTPCaller.Connect (Rejects (ErrorInstance "ECONNREFUSED")); FTPCaller.Disconnect])
    by (repeat constructor).
  assert (Hg : Forall (λ o, SFTPCaller.is_successful_connect o = false)
    [SFTPCaller.GetConfig]) by (repeat constructor).
  split; [exact Hf | split; [exact Hg |]].
  exact (proj1 (getClient_before_connect_throws 0 w_ftp _ _ Hf Hg)).
Defined.

(** ** Connected at construction *)

(** C8: for every object-storage config with a region, the constructor
    returns a manager for which [isConnected()] is true, having made no
    network call (only the local construction of the client).  An FTP or
    SFTP manager has [isConnected()] false after construction and after any
    calls among which no [connect()] succeeded; a [connect()] that succeeds
    then makes it true. *)
Theorem connected_at_construction
    (cfg_s3 cfg : loc) (w : World) (region : string)
    (ops_f : list FTPCaller.op) (ops_g : list SFTPCaller.op) :
  get_prop (heap w) cfg_s3 "region" = VStr region →
  Forall (λ o, FTPCaller.is_successful_connect o = false) ops_f →
  Forall (λ o, SFTPCaller.is_successful_connect o = false) ops_g →
  (∃ this w1 cs, S3Connection.new Constructs cfg_s3 w = (Return this, w1) ∧
     S3Connection.isConnected (this, w1) = (Return true, (this, w1)) ∧
     calls w1 = calls w ++ cs ∧
     forallb (λ c, negb (is_network_call c)) cs = true) ∧
  (∃ this w1, FTPConnection.new Constructs cfg w = (Return this, w1) ∧
     (FTPConnection.isConnected (this, w1)).1 = Return false ∧
     let s := FTPCaller.run ops_f (this, w1) in
     (FTPConnection.isConnected s).1 = Return false ∧
     (FTPConnection.isConnected (FTPConnection.connect Resolves s).2).1 = Return true) ∧
  (∃ this w1, SFTPConnection.new Constructs cfg w = (Return this, w1) ∧
     (SFTPConnection.isConnected (this, w1)).1 = Return false ∧
     let s := SFTPCaller.run ops_g (this, w1) in
     (SFTPConnection.isConnected s).1 = Return false ∧
     (SFTPConnection.isConnected (SFTPConnection.connect Resolves s).2).1 = Return true).
Proof.
  intros _ Hf Hg. split_and!.
  - rewrite s3_new_eq. eexists _, _, [_]. split_and!; reflexivity.
  - rewrite ftp_new_eq. eexists _, _. split_and!; [reflexivity..|]. cbv zeta.
    match goal with |- context [FTPCaller.run ops_f ?s0] =>
      pose proof (ftp_run_keeps_idle ops_f s0 Hf eq_refl) as Hidle;
      destruct (FTPCaller.run ops_f s0) as [this' w'] end.
    simpl in Hidle. rewrite ftp_connect_resolves. split; [|done].
    unfold FTPConnection.isConnected, this_field, gets; simpl. by rewrite Hidle.
  - rewrite sftp_new_eq. eexists _, _. split_and!; [reflexivity..|]. cbv zeta.
    match goal with |- context [SFTPCaller.run ops_g ?s0] =>
      pose proof (sftp_run_keeps_idle ops_g s0 Hg eq_refl) as Hidle;
      destruct (SFTPCaller.run ops_g s0) as [this' w'] end.
    simpl in Hidle. rewrite sftp_connect_resolves. split; [|done].
    unfold SFTPConnection.isConnected, this_field, gets; simpl. by rewrite Hidle.
Qed.

Lemma connected_at_construction_witness :
  get_prop (heap w_s3) 0 "region" = VStr "us-east-1" ∧
  Forall (λ o, FTPCaller.is_successful_connect o = false)
    [FTPCaller.Connect (Rejects (ErrorInstance "ECONNREFUSED"))] ∧
  Forall (λ o, SFTPCaller.is_successful_connect o = false) [SFTPCaller.IsConnected] ∧
  ∃ this w1 cs, S3Connection.new Constructs 0 w_s3 = (Return this, w1) ∧
    S3Connection.isConnected (this, w1) = (Return true, (this, w1)) ∧
    calls w1 = calls w_s3 ++ cs ∧
    forallb (λ c, negb (is_network_call c)) cs = true.
Proof.
  assert (Hr : get_prop (heap w_s3) 0 "region" = VStr "us-east-1") by reflexivity.
  assert (Hf : Forall (λ o, FTPCaller.is_successful_connect o = false)
    [FTPCaller.Connect (Rejects (ErrorInstance "ECONNREFUSED"))])
    by (repeat constructor).
  assert (Hg : Forall (λ o, SFTPCaller.is_successful_connect o = false)
    [SFTPCaller.IsConnected]) by (repeat constructor).
  split; [exact Hr | split; [exact Hf | split; [exact Hg |]]].
  exact (proj1 (connected_at_construction 0 0 w_s3 "us-east-1" _ _ Hr Hf Hg)).
Defined.

(** ** [disconnect] twice *)

Section disconnect_twice.

(** On an FTP manager in any state the second of two [disconnect()] calls
    returns, changes nothing and calls no driver. *)
Lemma ftp_disconnect_twice (f : FTPConnection.t) (w : World) :
  let r1 := FTPConnection.disconnect (f, w) in
  r1.1 = Return tt ∧ FTPConnection.disconnect r1.2 = (Return tt, r1.2).
Proof.
  destruct (FTPConnection.connected f) eqn:E.
  - rewrite ftp_disconnect_connected by done. cbv zeta; cbn [fst snd].
    by rewrite ftp_disconnect_idle.
  - rewrite ftp_disconnect_idle by done. cbv zeta; cbn [fst snd].
    by rewrite ftp_disconnect_idle.
Qed.

(** The same for an SFTP manager, when the driver's [end()] resolves. *)
Lemma sftp_disconnect_twice (g : SFTPConnection.t) (w : World) (net : DriverOutcome) :
  let r1 := SFTPConnection.disconnect Resolves (g, w) in
  r1.1 = Return tt ∧ SFTPConnection.disconnect net r1.2 = (Return tt, r1.2).
Proof.
  destruct (SFTPConnection.connected g) eqn:E.
  - rewrite sftp_disconnect_connected by done. cbv zeta; cbn [fst snd].
    by rewrite sftp_disconnect_idle.
  - rewrite sftp_disconnect_idle by done. cbv zeta; cbn [fst snd].
    by rewrite sftp_disconnect_idle.
Qed.

(** When [end()] rejects, the rejection leaves [disconnect] and the manager
    stays connected. *)
Lemma sftp_disconnect_rejected (g : SFTPConnection.t) (w : World) (cause : js_exn) :
  SFTPConnection.connected g = true →
  SFTPConnection.disconnect (Rejects cause) (g, w) =
  (Throw cause, (g, log_call (SftpEnd (SFTPConnection.client g)) w)).
Proof.
  intros H. unfold SFTPConnection.disconnect, bind, this_field, gets; simpl.
  by rewrite H.
Qed.

End disconnect_twice.

(** C7, for [S3Connection]: the guard of [disconnect()] tests [this.client],
    which is always set, so each of two calls in succession calls
    [destroy()] on the client.  Both calls return and the second leaves
    [connected] false, but it does release again. *)
Theorem s3_disconnect_twice_destroys_twice (a : S3Connection.t) (w : World) :
  let r1 := S3Connection.disconnect (a, w) in
  let r2 := S3Connection.disconnect r1.2 in
  r1.1 = Return tt ∧ r2.1 = Return tt ∧
  S3Connection.connected r1.2.1 = false ∧
  r2.2.1 = r1.2.1 ∧
  calls r1.2.2 = calls w ++ [S3ClientDestroy (S3Connection.client a)] ∧
  calls r2.2.2 = calls w ++ [S3ClientDestroy (S3Connection.client a);
                             S3ClientDestroy (S3Connection.client a)] ∧
  r2.2 ≠ r1.2.
Proof.
  rewrite !s3_disconnect_eq. cbv zeta; cbn [fst snd]. rewrite !s3_disconnect_eq.
  split_and!; try done.
  - simpl. by rewrite <-app_assoc.
  - simpl. intros E. injection E as E.
    apply (f_equal length) in E. rewrite !length_app in E. simpl in E. lia.
Qed.

(** The same on the example: construct, disconnect, disconnect. *)
Example s3_disconnect_twice_calls :
  calls (S3Connection.disconnect (S3Connection.disconnect s3_fresh).2).2.2 =
  [S3ClientNew 0 {| s3_region := VStr "us-east-1"; s3_credentials := VRef 1;
                    s3_endpoint := VUndef; s3_forcePathStyle := VUndef |};
   S3ClientDestroy 0; S3ClientDestroy 0].
Proof. reflexivity. Qed.

(** * Further properties of the three classes *)

(** ** What no call sequence changes *)

Section run_frames.

Lemma s3_run_snoc ops o s :
  S3Caller.run (ops ++ [o]) s = S3Caller.call o (S3Caller.run ops s).
Proof. unfold S3Caller.run. by rewrite foldl_app. Qed.

Lemma ftp_run_snoc ops o s :
  FTPCaller.run (ops ++ [o]) s = FTPCaller.call o (FTPCaller.run ops s).
Proof. unfold FTPCaller.run. by rewrite foldl_app. Qed.

Lemma sftp_run_snoc ops o s :
  SFTPCaller.run (ops ++ [o]) s = SFTPCaller.call o (SFTPCaller.run ops s).
Proof. unfold SFTPCaller.run. by rewrite foldl_app. Qed.

Lemma frame_of_refl {C} (client : C → handle) config (s : C * World) :
  frame_of client config s s.
Proof.
  split_and!; try done. exists []. split; [by rewrite app_nil_r | constructor].
Qed.

Lemma frame_of_trans {C} (client : C → handle) config (s1 s2 s3 : C * World) :
  frame_of client config s1 s2 → frame_of client config s2 s3 →
  frame_of client config s1 s3.
Proof.
  intros (Hc1 & Hl1 & Hn1 & cs1 & E1 & F1) (Hc2 & Hl2 & Hn2 & cs2 & E2 & F2).
  split_and!; try congruence.
  exists (cs1 ++ cs2). split.
  - by rewrite E2, E1, app_assoc.
  - apply Forall_app. split; [done|]. by rewrite <-Hc1.
Qed.

Ltac one_call :=
  split_and!; try done;
  first [ by (exists []; split; [by rewrite app_nil_r | constructor])
        | by (eexists [_]; split; [reflexivity | by repeat constructor]) ].

Lemma s3_call_frame o s :
  frame_of S3Connection.client S3Connection.config s (S3Caller.call o s).
Proof.
  destruct s as [[c l b] w]. destruct o; destruct b; one_call.
Qed.

Lemma ftp_call_frame o s :
  frame_of FTPConnection.client FTPConnection.config s (FTPCaller.call o s).
Proof.
  destruct s as [[c l b] w]. destruct o as [[|cause]| | | | |]; destruct b; one_call.
Qed.

Lemma sftp_call_frame o s :
  frame_of SFTPConnection.client SFTPConnection.config s (SFTPCaller.call o s).
Proof.
  destruct s as [[c l b] w].
  destruct o as [[|cause]| | |[|cause]| |]; destruct b; one_call.
Qed.

Lemma s3_run_frame ops : ∀ s,
  frame_of S3Connection.client S3Connection.config s (S3Caller.run ops s).
Proof.
  induction ops as [|o ops IH]; intros s; [apply frame_of_refl|].
  eapply frame_of_trans; [apply (s3_call_frame o)|apply IH].
Qed.

Lemma ftp_run_frame ops : ∀ s,
  frame_of FTPConnection.client FTPConnection.config s (FTPCaller.run ops s).
Proof.
  induction ops as [|o ops IH]; intros s; [apply frame_of_refl|].
  eapply frame_of_trans; [apply (ftp_call_frame o)|apply IH].
Qed.

Lemma sftp_run_frame ops : ∀ s,
  frame_of SFTPConnection.client SFTPConnection.config s (SFTPCaller.run ops s).
Proof.
  induction ops as [|o ops IH]; intros s; [apply frame_of_refl|].
  eapply frame_of_trans; [apply (sftp_call_frame o)|apply IH].
Qed.

End run_frames.

(** X1: in each of the three classes the fields [client] and [config] are
    set by the constructor and by nothing else: after any sequence of calls
    (connects that succeed or fail, disconnects, reads, writes by the
    caller) the manager holds the same handle and the same config reference,
    and no further client object has been built. *)
Theorem handle_and_config_are_fixed
    (a : S3Connection.t) (f : FTPConnection.t) (g : SFTPConnection.t) (w : World)
    (ops_a : list S3Caller.op) (ops_f : list FTPCaller.op)
    (ops_g : list SFTPCaller.op) :
  (S3Connection.client (S3Caller.run ops_a (a, w)).1 = S3Connection.client a ∧
   S3Connection.config (S3Caller.run ops_a (a, w)).1 = S3Connection.config a ∧
   next_handle (S3Caller.run ops_a (a, w)).2 = next_handle w) ∧
  (FTPConnection.client (FTPCaller.run ops_f (f, w)).1 = FTPConnection.client f ∧
   FTPConnection.config (FTPCaller.run ops_f (f, w)).1 = FTPConnection.config f ∧
   next_handle (FTPCaller.run ops_f (f, w)).2 = next_handle w) ∧
  (SFTPConnection.client (SFTPCaller.run ops_g (g, w)).1 = SFTPConnection.client g ∧
   SFTPConnection.config (SFTPCaller.run ops_g (g, w)).1 = SFTPConnection.config g ∧
   next_handle (SFTPCaller.run ops_g (g, w)).2 = next_handle w).
Proof.
  destruct (s3_run_frame ops_a (a, w)) as (? & ? & ? & _).
  destruct (ftp_run_frame ops_f (f, w)) as (? & ? & ? & _).
  destruct (sftp_run_frame ops_g (g, w)) as (? & ? & ? & _).
  done.
Qed.

(** X2: whatever calls are made on a manager, the driver log only grows, and
    every driver call the manager adds is a call on its own client: a
    manager never uses the client of another manager. *)
Theorem driver_calls_are_on_own_client
    (a : S3Connection.t) (f : FTPConnection.t) (g : SFTPConnection.t) (w : World)
    (ops_a : list S3Caller.op) (ops_f : list FTPCaller.op)
    (ops_g : list SFTPCaller.op) :
  (∃ cs, calls (S3Caller.run ops_a (a, w)).2 = calls w ++ cs ∧
         Forall (λ c, call_client c = S3Connection.client a) cs) ∧
  (∃ cs, calls (FTPCaller.run ops_f (f, w)).2 = calls w ++ cs ∧
         Forall (λ c, call_client c = FTPConnection.client f) cs) ∧
  (∃ cs, calls (SFTPCaller.run ops_g (g, w)).2 = calls w ++ cs ∧
         Forall (λ c, call_client c = SFTPConnection.client g) cs).
Proof.
  destruct (s3_run_frame ops_a (a, w)) as (_ & _ & _ & H1).
  destruct (ftp_run_frame ops_f (f, w)) as (_ & _ & _ & H2).
  destruct (sftp_run_frame ops_g (g, w)) as (_ & _ & _ & H3).
  done.
Qed.

(** ** The store under a manager's methods *)

Section store_frames.







End store_frames.



(** ** The value of [connected] after a history *)

Section connected_after.

Lemma s3_call_connected o s :
  S3Connection.connected (S3Caller.call o s).1 =
  S3Connection.connected s.1 && negb (S3Caller.is_disconnect o).
Proof. destruct s as [[c l b] w]. by destruct o, b. Qed.

Lemma ftp_call_connected o s :
  FTPConnection.connected (FTPCaller.call o s).1 =
  if ftp_is_lifecycle o then FTPCaller.is_successful_connect o
  else FTPConnection.connected s.1.
Proof.
  destruct s as [[c l b] w]. by destruct o as [[|cause]| | | | |], b.
Qed.

Lemma sftp_call_connected o s :
  SFTPConnection.connected (SFTPCaller.call o s).1 =
  if sftp_is_lifecycle o then SFTPCaller.is_successful_connect o
  else SFTPConnection.connected s.1.
Proof.
  destruct s as [[c l b] w].
  by destruct o as [[|cause]| | |[|cause]| |], b.
Qed.

End connected_after.

(** X4: an S3 manager is connected exactly as long as [disconnect()] has not
    been called: after any sequence of calls [isConnected()] is true iff
    the manager was connected at the start and no call of the sequence is a
    [disconnect()].  The class has no way back: once disconnected,
    [getClient()] throws after every later sequence of calls. *)
Theorem s3_connected_until_first_disconnect
    (a : S3Connection.t) (w : World) (ops : list S3Caller.op) :
  S3Connection.connected (S3Caller.run ops (a, w)).1 =
    S3Connection.connected a && forallb (λ o, negb (S3Caller.is_disconnect o)) ops ∧
  ∀ more,
    (S3Connection.getClient
       (S3Caller.run more (S3Connection.disconnect (S3Caller.run ops (a, w))).2)).1 =
    Throw (ErrorInstance "S3 connection not initialized").
Proof.
  assert (Hrun : ∀ ops s, S3Connection.connected (S3Caller.run ops s).1 =
    S3Connection.connected s.1 && forallb (λ o, negb (S3Caller.is_disconnect o)) ops).
  { clear. induction ops as [|o ops IH]; intros s; simpl.
    - by rewrite andb_true_r.
    - rewrite IH, s3_call_connected. by rewrite andb_assoc. }
  split; [apply Hrun|].
  intros more.
  destruct (S3Caller.run ops (a, w)) as [a' w'].
  rewrite s3_disconnect_eq; cbn [snd].
  pose proof (Hrun more (S3Connection.set_connected false a',
                         log_call (S3ClientDestroy (S3Connection.client a')) w')) as H.
  simpl in H.
  destruct (S3Caller.run more _) as [a'' w''].
  rewrite s3_getClient_eq. simpl in *. by rewrite H.
Qed.

(** X5: for an FTP or SFTP manager [isConnected()] after any sequence of
    calls is decided by the last call that can change it (a [connect()], or
    a [disconnect()] whose teardown did not fail): it is true iff that call
    is a [connect()] that succeeded; when there is no such call it is what
    it was at the start. *)
Theorem connected_is_set_by_last_lifecycle_call
    (f : FTPConnection.t) (g : SFTPConnection.t) (w : World)
    (ops_f : list FTPCaller.op) (ops_g : list SFTPCaller.op) :
  FTPConnection.connected (FTPCaller.run ops_f (f, w)).1 =
    match last (List.filter ftp_is_lifecycle ops_f) with
    | Some o => FTPCaller.is_successful_connect o
    | None => FTPConnection.connected f
    end ∧
  SFTPConnection.connected (SFTPCaller.run ops_g (g, w)).1 =
    match last (List.filter sftp_is_lifecycle ops_g) with
    | Some o => SFTPCaller.is_successful_connect o
    | None => SFTPConnection.connected g
    end.
Proof.
  split.
  - induction ops_f as [|o ops IH] using rev_ind; [done|].
    rewrite ftp_run_snoc, ftp_call_connected, List.filter_app. simpl.
    destruct (ftp_is_lifecycle o).
    + by rewrite last_snoc.
    + by rewrite app_nil_r.
  - induction ops_g as [|o ops IH] using rev_ind; [done|].
    rewrite sftp_run_snoc, sftp_call_connected, List.filter_app. simpl.
    destruct (sftp_is_lifecycle o).
    + by rewrite last_snoc.
    + by rewrite app_nil_r.
Qed.

(** ** Sessions opened and closed *)

Section sessions.

Lemma ftp_call_sessions o s :
  ftp_closes (FTPConnection.client s.1) (calls (FTPCaller.call o s).2)
    + open_sessions (FTPConnection.connected (FTPCaller.call o s).1)
  ≤ ftp_closes (FTPConnection.client s.1) (calls s.2)
    + open_sessions (FTPConnection.connected s.1)
    + (if FTPCaller.is_successful_connect o then 1 else 0).
Proof.
  destruct s as [[c l b] w]. unfold ftp_closes.
  destruct o as [[|cause]| | | | |]; destruct b; simpl;
    rewrite ?List.filter_app, ?length_app; simpl;
    rewrite ?bool_decide_eq_true_2 by done; simpl; lia.
Qed.

Lemma ftp_run_sessions ops : ∀ s,
  ftp_closes (FTPConnection.client s.1) (calls (FTPCaller.run ops s).2)
    + open_sessions (FTPConnection.connected (FTPCaller.run ops s).1)
  ≤ ftp_closes (FTPConnection.client s.1) (calls s.2)
    + open_sessions (FTPConnection.connected s.1)
    + length (List.filter FTPCaller.is_successful_connect ops).
Proof.
  induction ops as [|o ops IH]; intros s; [simpl; lia|].
  pose proof (ftp_call_sessions o s) as Ho.
  pose proof (IH (FTPCaller.call o s)) as Hr.
  destruct (ftp_call_frame o s) as (Hc & _).
  rewrite Hc in Hr.
  change (FTPCaller.run (o :: ops) s) with (FTPCaller.run ops (FTPCaller.call o s)).
  simpl List.filter. destruct (FTPCaller.is_successful_connect o); simpl length; lia.
Qed.

End sessions.

(** X6: an FTP manager never closes a session it has not opened.  Over any
    sequence of calls, the [close()] calls logged on its client, plus one
    when it ends connected, are at most those logged before, plus one
    when it started connected, plus the number of [connect()] calls of the
    sequence that succeeded: a [connect()] that fails opens nothing that a
    later [disconnect()] would close. *)
Theorem ftp_closes_at_most_what_it_opened
    (f : FTPConnection.t) (w : World) (ops : list FTPCaller.op) :
  ftp_closes (FTPConnection.client f) (calls (FTPCaller.run ops (f, w)).2)
    + open_sessions (FTPConnection.connected (FTPCaller.run ops (f, w)).1)
  ≤ ftp_closes (FTPConnection.client f) (calls w)
    + open_sessions (FTPConnection.connected f)
    + length (List.filter FTPCaller.is_successful_connect ops).
Proof. exact (ftp_run_sessions ops (f, w)). Qed.

(** ** The config is held by reference *)

Section config_alias.

Lemma get_prop_set_prop h l k x : get_prop (set_prop l k x h) l k = x.
Proof. unfold get_prop, set_prop. by rewrite lookup_insert_eq; simpl; rewrite lookup_insert_eq. Qed.

End config_alias.

(** X7: the constructors keep the caller's config object itself, not a copy
    of it.  When the caller, after construction, writes [host] in the object
    it passed, the next [connect()] of an FTP or SFTP manager hands the new
    host to the driver; and the object a later [getConfig()] of an S3
    manager returns holds a [region] written after construction, although
    the client was built with the region read at construction. *)
Theorem config_writes_after_construction_are_seen
    (cfg : loc) (w : World) (x : value) (net : DriverOutcome) :
  (∃ this w1 opts, FTPConnection.new Constructs cfg w = (Return this, w1) ∧
     last (calls (FTPCaller.run
                    [FTPCaller.Write cfg "host" x; FTPCaller.Connect net]
                    (this, w1)).2)
       = Some (FtpAccess (FTPConnection.client this) opts) ∧
     ftp_host opts = x) ∧
  (∃ this w1 opts, SFTPConnection.new Constructs cfg w = (Return this, w1) ∧
     last (calls (SFTPCaller.run
                    [SFTPCaller.Write cfg "host" x; SFTPCaller.Connect net]
                    (this, w1)).2)
       = Some (SftpConnect (SFTPConnection.client this) opts) ∧
     sftp_host opts = x) ∧
  (∃ this w1 l s2, S3Connection.new Constructs cfg w = (Return this, w1) ∧
     calls w1 = calls w ++
       [S3ClientNew (S3Connection.client this)
          {| s3_region := get_prop (heap w) cfg "region";
             s3_credentials := get_prop (heap w) cfg "credentials";
             s3_endpoint := get_prop (heap w) cfg "endpoint";
             s3_forcePathStyle := get_prop (heap w) cfg "forcePathStyle" |}] ∧
     S3Connection.getConfig
       (S3Caller.run [S3Caller.Write cfg "region" x] (this, w1))
       = (Return (VRef l), s2) ∧
     get_prop (heap s2.2) l "region" = x).
Proof.
  split_and!.
  - rewrite ftp_new_eq. eexists _, _, _. split; [reflexivity|].
    destruct net as [|cause]; simpl; rewrite last_snoc;
      (split; [reflexivity|]); simpl; apply get_prop_set_prop.
  - rewrite sftp_new_eq. eexists _, _, _. split; [reflexivity|].
    destruct net as [|cause]; simpl; rewrite last_snoc;
      (split; [reflexivity|]); simpl; apply get_prop_set_prop.
  - rewrite s3_new_eq. eexists _, _, _, _. split; [reflexivity|].
    split; [reflexivity|]. split; [reflexivity|].
    simpl. unfold get_prop, own_props, set_prop.
    rewrite lookup_insert_eq; simpl. rewrite lookup_insert_eq; simpl.
    by rewrite lookup_insert_eq.
Qed.

(** ** The options handed to the drivers *)

Section option_defaults.

Lemma truthy_falsy_values v :
  truthy v = negb (bool_decide (v ∈ falsy_values)).
Proof.
  unfold falsy_values.
  by destruct v as [| |[]|[[]|[]| |sg m e]|[|c u]|l].
Qed.

Lemma js_or_falsy_values v d :
  js_or v d = if bool_decide (v ∈ falsy_values) then d else v.
Proof.
  unfold js_or. rewrite truthy_falsy_values. by destruct (bool_decide _).
Qed.

End option_defaults.

(** X8: what [connect()] passes to the driver for a property [v] of the
    config.  For FTP: a port that is falsy ([undefined], [null], [false],
    [+0], [-0], [NaN], the empty string) becomes 21, a falsy user becomes
    ["anonymous"], a falsy password the empty string, a falsy secure flag
    [false]; for SFTP a falsy port becomes 22.  Every other value (a number
    that is not a zero or NaN, negative or fractional included, a non-empty
    string, [true], an object) is passed as it is.  The host, and for SFTP
    the username, have no default and are passed as they are.  A property
    the config does not have is treated as [undefined]. *)
Theorem connect_option_defaults
    (h : gmap nat (gmap string value)) (cfg : loc) (o : gmap string value)
    (v : value) :
  let falsy := bool_decide (v ∈ falsy_values) in
  let set k := <[cfg := <[k := v]> o]> h in
  let unset k := <[cfg := delete k o]> h in
  (ftp_port (FTPConnection.access_options (set "port") cfg)
     = (if falsy then VNum 21 else v) ∧
   ftp_user (FTPConnection.access_options (set "user") cfg)
     = (if falsy then VStr "anonymous" else v) ∧
   ftp_password (FTPConnection.access_options (set "password") cfg)
     = (if falsy then VStr "" else v) ∧
   ftp_secure (FTPConnection.access_options (set "secure") cfg)
     = (if falsy then VBool false else v) ∧
   ftp_host (FTPConnection.access_options (set "host") cfg) = v ∧
   ftp_secureOptions (FTPConnection.access_options (set "secureOptions") cfg) = v ∧
   sftp_port (SFTPConnection.connect_config (set "port") cfg)
     = (if falsy then VNum 22 else v) ∧
   sftp_host (SFTPConnection.connect_config (set "host") cfg) = v ∧
   sftp_username (SFTPConnection.connect_config (set "username") cfg) = v) ∧
  (ftp_port (FTPConnection.access_options (unset "port") cfg) = VNum 21 ∧
   ftp_user (FTPConnection.access_options (unset "user") cfg) = VStr "anonymous" ∧
   ftp_password (FTPConnection.access_options (unset "password") cfg) = VStr "" ∧
   ftp_secure (FTPConnection.access_options (unset "secure") cfg) = VBool false ∧
   ftp_host (FTPConnection.access_options (unset "host") cfg) = VUndef ∧
   sftp_port (SFTPConnection.connect_config (unset "port") cfg) = VNum 22 ∧
   sftp_host (SFTPConnection.connect_config (unset "host") cfg) = VUndef ∧
   sftp_username (SFTPConnection.connect_config (unset "username") cfg) = VUndef).
Proof.
  cbv zeta.
  unfold FTPConnection.access_options, SFTPConnection.connect_config; simpl.
  rewrite !js_or_falsy_values. unfold get_prop.
  rewrite !lookup_insert_eq; simpl. rewrite !lookup_insert_eq, !lookup_delete_eq.
  by repeat split.
Qed.

(** ** A manager that is not connected *)

Section idle_manager.

Lemma ftp_call_idle o s :
  ftp_is_connect o = false →
  FTPConnection.connected s.1 = false →
  FTPConnection.connected (FTPCaller.call o s).1 = false ∧
  calls (FTPCaller.call o s).2 = calls s.2.
Proof.
  destruct s as [[c l b] w]; simpl. intros Ho ->.
  by destruct o as [net| | | | |].
Qed.

Lemma sftp_call_idle o s :
  sftp_is_connect o = false →
  SFTPConnection.connected s.1 = false →
  SFTPConnection.connected (SFTPCaller.call o s).1 = false ∧
  calls (SFTPCaller.call o s).2 = calls s.2.
Proof.
  destruct s as [[c l b] w]; simpl. intros Ho ->.
  by destruct o as [net| | |net| |].
Qed.

Lemma ftp_run_idle ops : ∀ s,
  Forall (λ o, ftp_is_connect o = false) ops →
  FTPConnection.connected s.1 = false →
  FTPConnection.connected (FTPCaller.run ops s).1 = false ∧
  calls (FTPCaller.run ops s).2 = calls s.2.
Proof.
  induction ops as [|o ops IH]; intros s Hops Hs; [done|].
  apply Forall_cons in Hops as [Ho Hops].
  destruct (ftp_call_idle o s Ho Hs) as [Hc Hl].
  destruct (IH _ Hops Hc) as [Hc' Hl']. simpl. split; [done|congruence].
Qed.

Lemma sftp_run_idle ops : ∀ s,
  Forall (λ o, sftp_is_connect o = false) ops →
  SFTPConnection.connected s.1 = false →
  SFTPConnection.connected (SFTPCaller.run ops s).1 = false ∧
  calls (SFTPCaller.run ops s).2 = calls s.2.
Proof.
  induction ops as [|o ops IH]; intros s Hops Hs; [done|].
  apply Forall_cons in Hops as [Ho Hops].
  destruct (sftp_call_idle o s Ho Hs) as [Hc Hl].
  destruct (IH _ Hops Hc) as [Hc' Hl']. simpl. split; [done|congruence].
Qed.

End idle_manager.

(** X9: an FTP or SFTP manager that is not connected calls no driver until
    [connect()] is called: any sequence of [disconnect()], [getClient()],
    [isConnected()], [getConfig()] and writes leaves the driver log as it
    was.  In particular, when the [connect()] of a manager fails, whatever
    its state before, the calls that follow it, [disconnect()] included,
    never reach the driver: a session the manager had open before the
    failed [connect()] is not closed by it. *)
Theorem idle_manager_calls_no_driver
    (f : FTPConnection.t) (g : SFTPConnection.t) (w : World) (cause : js_exn)
    (ops_f : list FTPCaller.op) (ops_g : list SFTPCaller.op) :
  Forall (λ o, ftp_is_connect o = false) ops_f →
  Forall (λ o, sftp_is_connect o = false) ops_g →
  (FTPConnection.connected f = false →
     calls (FTPCaller.run ops_f (f, w)).2 = calls w) ∧
  (SFTPConnection.connected g = false →
     calls (SFTPCaller.run ops_g (g, w)).2 = calls w) ∧
  calls (FTPCaller.run (FTPCaller.Connect (Rejects cause) :: ops_f) (f, w)).2 =
    calls w ++ [FtpAccess (FTPConnection.client f)
                  (FTPConnection.access_options (heap w) (FTPConnection.config f))] ∧
  calls (SFTPCaller.run (SFTPCaller.Connect (Rejects cause) :: ops_g) (g, w)).2 =
    calls w ++ [SftpConnect (SFTPConnection.client g)
                  (SFTPConnection.connect_config (heap w) (SFTPConnection.config g))].
Proof.
  intros Hf Hg. split_and!.
  - intros Hc. by apply (ftp_run_idle ops_f (f, w)).
  - intros Hc. by apply (sftp_run_idle ops_g (g, w)).
  - replace (FTPCaller.run (FTPCaller.Connect (Rejects cause) :: ops_f) (f, w))
      with (FTPCaller.run ops_f (FTPConnection.connect (Rejects cause) (f, w)).2)
      by reflexivity.
    rewrite ftp_connect_rejects; cbn [snd].
    by rewrite (proj2 (ftp_run_idle ops_f (FTPConnection.set_connected false f, _)
                         Hf eq_refl)).
  - replace (SFTPCaller.run (SFTPCaller.Connect (Rejects cause) :: ops_g) (g, w))
      with (SFTPCaller.run ops_g (SFTPConnection.connect (Rejects cause) (g, w)).2)
      by reflexivity.
    rewrite sftp_connect_rejects; cbn [snd].
    by rewrite (proj2 (sftp_run_idle ops_g (SFTPConnection.set_connected false g, _)
                         Hg eq_refl)).
Qed.

Lemma idle_manager_calls_no_driver_witness :
  Forall (λ o, ftp_is_connect o = false)
    [FTPCaller.Disconnect; FTPCaller.GetClient; FTPCaller.Disconnect] ∧
  Forall (λ o, sftp_is_connect o = false)
    [SFTPCaller.Disconnect (Rejects (OtherThrown "x"))] ∧
  calls (FTPCaller.run
           (FTPCaller.Connect (Rejects (ErrorInstance "Timeout"))
              :: [FTPCaller.Disconnect; FTPCaller.GetClient; FTPCaller.Disconnect])
           (FTPConnection.mk 0 0 true, w_ftp)).2 =
    calls w_ftp ++ [FtpAccess 0 (FTPConnection.access_options (heap w_ftp) 0)].
Proof.
  assert (Hf : Forall (λ o, ftp_is_connect o = false)
    [FTPCaller.Disconnect; FTPCaller.GetClient; FTPCaller.Disconnect])
    by (repeat constructor).
  assert (Hg : Forall (λ o, sftp_is_connect o = false)
    [SFTPCaller.Disconnect (Rejects (OtherThrown "x"))]) by (repeat constructor).
  split; [exact Hf | split; [exact Hg |]].
  exact (proj1 (proj2 (proj2 (idle_manager_calls_no_driver
    (FTPConnection.mk 0 0 true) (SFTPConnection.mk 0 0 true) w_ftp
    (ErrorInstance "Timeout") _ _ Hf Hg)))).
Defined.

(** ** What the thrown error keeps of the cause *)

(** X10: the error a failed [connect()] throws keeps the text of the cause
    and nothing else: two rejections give the same thrown error exactly
    when they have the same text ([message] of an [Error], string form of
    any other value).  The error of an FTP manager is never that of an SFTP
    manager. *)
Theorem connect_error_keeps_the_text
    (f : FTPConnection.t) (g : SFTPConnection.t) (w : World) (c1 c2 : js_exn) :
  ((FTPConnection.connect (Rejects c1) (f, w)).1 =
   (FTPConnection.connect (Rejects c2) (f, w)).1 ↔ error_text c1 = error_text c2) ∧
  ((SFTPConnection.connect (Rejects c1) (g, w)).1 =
   (SFTPConnection.connect (Rejects c2) (g, w)).1 ↔ error_text c1 = error_text c2) ∧
  (FTPConnection.connect (Rejects c1) (f, w)).1 ≠
  (SFTPConnection.connect (Rejects c2) (g, w)).1.
Proof.
  rewrite !ftp_connect_rejects, !sftp_connect_rejects. cbn [fst].
  split_and!.
  - split; [|by intros ->].
    intros E. injection E as E. by apply (inj (String.append _)) in E.
  - split; [|by intros ->].
    intros E. injection E as E. by apply (inj (String.append _)) in E.
  - intros E. injection E as E. discriminate E.
Qed.

(** ** A teardown that fails *)

(** X11: when the [end()] of the SFTP driver rejects, [disconnect()] of a
    connected manager throws the driver's own value, not wrapped, and the
    manager stays connected: [isConnected()] is true, [getClient()] still
    returns the handle, and a second [disconnect()] calls [end()] again. *)
Theorem sftp_failed_disconnect_stays_connected
    (g : SFTPConnection.t) (w : World) (cause : js_exn) (net : DriverOutcome) :
  SFTPConnection.connected g = true →
  let r := SFTPConnection.disconnect (Rejects cause) (g, w) in
  r.1 = Throw cause ∧
  (SFTPConnection.isConnected r.2).1 = Return true ∧
  (SFTPConnection.getClient r.2).1 = Return (SFTPConnection.client g) ∧
  calls r.2.2 = calls w ++ [SftpEnd (SFTPConnection.client g)] ∧
  calls (SFTPConnection.disconnect net r.2).2.2 =
    calls w ++ [SftpEnd (SFTPConnection.client g); SftpEnd (SFTPConnection.client g)].
Proof.
  intros Hc. rewrite sftp_disconnect_rejected by done. cbv zeta; cbn [fst snd].
  rewrite sftp_getClient_eq, Hc.
  split_and!; try done.
  - unfold SFTPConnection.isConnected, this_field, gets; simpl. by rewrite Hc.
  - destruct net as [|c'].
    + rewrite sftp_disconnect_connected by done. simpl. by rewrite <-app_assoc.
    + rewrite sftp_disconnect_rejected by done. simpl. by rewrite <-app_assoc.
Qed.

Lemma sftp_failed_disconnect_stays_connected_witness :
  SFTPConnection.connected (SFTPConnection.mk 0 0 true) = true ∧
  (SFTPConnection.disconnect (Rejects (ErrorInstance "ECONNRESET"))
     (SFTPConnection.mk 0 0 true, w_sftp)).1 = Throw (ErrorInstance "ECONNRESET").
Proof.
  split; [reflexivity|].
  exact (proj1 (sftp_failed_disconnect_stays_connected
    (SFTPConnection.mk 0 0 true) w_sftp (ErrorInstance "ECONNRESET") Resolves eq_refl)).
Defined.

(** ** Several managers *)

(** X12: managers are separate instances.  A manager built after another one
    of its class, whatever calls were made on the first in between, holds a
    different client object, and starts not connected (connected, for S3)
    whatever the state of the first. *)
Theorem managers_are_independent
    (cfg1 cfg2 : loc) (w : World)
    (ops_a : list S3Caller.op) (ops_f : list FTPCaller.op)
    (ops_g : list SFTPCaller.op) :
  (∃ a w1 b w2, S3Connection.new Constructs cfg1 w = (Return a, w1) ∧
     S3Connection.new Constructs cfg2 (S3Caller.run ops_a (a, w1)).2 = (Return b, w2) ∧
     S3Connection.client b ≠ S3Connection.client (S3Caller.run ops_a (a, w1)).1 ∧
     S3Connection.connected b = true) ∧
  (∃ a w1 b w2, FTPConnection.new Constructs cfg1 w = (Return a, w1) ∧
     FTPConnection.new Constructs cfg2 (FTPCaller.run ops_f (a, w1)).2 = (Return b, w2) ∧
     FTPConnection.client b ≠ FTPConnection.client (FTPCaller.run ops_f (a, w1)).1 ∧
     FTPConnection.connected b = false) ∧
  (∃ a w1 b w2, SFTPConnection.new Constructs cfg1 w = (Return a, w1) ∧
     SFTPConnection.new Constructs cfg2 (SFTPCaller.run ops_g (a, w1)).2 = (Return b, w2) ∧
     SFTPConnection.client b ≠ SFTPConnection.client (SFTPCaller.run ops_g (a, w1)).1 ∧
     SFTPConnection.connected b = false).
Proof.
  split_and!.
  - rewrite s3_new_eq. eexists _, _, _, _. split; [reflexivity|].
    rewrite s3_new_eq. split; [reflexivity|].
    match goal with |- context [S3Caller.run ops_a ?s] =>
      destruct (s3_run_frame ops_a s) as (Hc & _ & Hn & _) end.
    simpl in *. rewrite Hc, Hn. split; [lia|done].
  - rewrite ftp_new_eq. eexists _, _, _, _. split; [reflexivity|].
    rewrite ftp_new_eq. split; [reflexivity|].
    match goal with |- context [FTPCaller.run ops_f ?s] =>
      destruct (ftp_run_frame ops_f s) as (Hc & _ & Hn & _) end.
    simpl in *. rewrite Hc, Hn. split; [lia|done].
  - rewrite sftp_new_eq. eexists _, _, _, _. split; [reflexivity|].
    rewrite sftp_new_eq. split; [reflexivity|].
    match goal with |- context [SFTPCaller.run ops_g ?s] =>
      destruct (sftp_run_frame ops_g s) as (Hc & _ & Hn & _) end.
    simpl in *. rewrite Hc, Hn. split; [lia|done].
Qed.
